(** * BananaDB: the car-listing parsing pipeline

    A shallow embedding of the provider-dispatch module of BananaDB
    (settings accessor, provider adapters, response normalizer, listing
    validator, [parseCarListing]) and the properties its specification
    states about them.

    Conventions of the embedding.
    - A JavaScript string is the list of its UTF-16 code units ([list N]);
      [js "abc"] is the string of an ASCII literal.
    - A JavaScript number is a double.  [JSON.parse] yields finite doubles
      and, on overflow, the infinities, never NaN; a number is modelled by
      its exact value, a rational or one of the two infinities.
    - A JSON object is a finite map from property names to values.  The
      objects handled here come from [JSON.parse], each one fresh, so a
      mutation by the validator is the replacement of the object by the
      updated map.
    - Exceptions are explicit: synchronous code returns a [result], the
      asynchronous functions run in the monad [M], which also records the
      remote calls issued, in order.  Console output is not modelled. *)

From Stdlib Require Import ZArith QArith String Ascii List Lia.
From stdpp Require Import gmap list.

Set Warnings "-register-all".
Local Open Scope Z_scope.

(** ** Strings *)

Definition js (s : string) : list N :=
  List.map N_of_ascii (list_ascii_of_string s).

(** The code units [String.prototype.trim] strips: WhiteSpace and
    LineTerminator of ECMA-262. *)
Definition isWhiteSpace (c : N) : bool :=
  ((c =? 9) || (c =? 10) || (c =? 11) || (c =? 12) || (c =? 13)
   || (c =? 32) || (c =? 160) || (c =? 5760)
   || ((8192 <=? c) && (c <=? 8202))
   || (c =? 8232) || (c =? 8233) || (c =? 8239) || (c =? 8287)
   || (c =? 12288) || (c =? 65279))%N.

Fixpoint trimStart (s : list N) : list N :=
  match s with
  | c :: s' => if isWhiteSpace c then trimStart s' else s
  | [] => []
  end.

Definition trimEnd (s : list N) : list N := rev (trimStart (rev s)).

Definition trim (s : list N) : list N := trimEnd (trimStart s).

Definition isEmpty (s : list N) : bool :=
  match s with [] => true | _ => false end.

(** [String.prototype.toLowerCase] on the ASCII letters.  Code units
    outside ASCII are left as they are: the only use of the lower-cased
    string is as a key into [fuelTypeMap], whose keys are ASCII and contain
    no letter that a non-ASCII character lower-cases to. *)
Definition lowerUnit (c : N) : N :=
  if ((65 <=? c) && (c <=? 90))%N then (c + 32)%N else c.

Definition toLowerCase (s : list N) : list N := List.map lowerUnit s.

(** ** Numbers *)

Inductive number :=
| Finite (q : Q)
| PosInfinity
| NegInfinity.

Definition num_of_Z (z : Z) : number := Finite (inject_Z z).

(** [x < y] on numbers. *)
Definition num_ltb (x y : number) : bool :=
  match x, y with
  | Finite p, Finite q => match (p ?= q)%Q with Lt => true | _ => false end
  | NegInfinity, NegInfinity => false
  | NegInfinity, _ => true
  | PosInfinity, _ => false
  | Finite _, PosInfinity => true
  | Finite _, NegInfinity => false
  end.

Definition num_is_zero (x : number) : bool :=
  match x with
  | Finite q => Qeq_bool q 0
  | _ => false
  end.

(** ** Values *)

(** Built-in objects that a property read can reach through the prototype
    chain of a plain object. *)
Inductive builtin :=
| ObjectConstructor
| ObjectPrototype
| ObjectPrototypeMethod (name : list N).

Inductive value :=
| VUndefined
| VNull
| VBool (b : bool)
| VNum (n : number)
| VStr (s : list N)
| VArr (items : list value)
| VObj (props : gmap (list N) value)
| VBuiltin (b : builtin).

Inductive jstype :=
| TUndefined | TObject | TBoolean | TNumber | TString | TFunction.

Definition typeof (v : value) : jstype :=
  match v with
  | VUndefined => TUndefined
  | VNull => TObject
  | VBool _ => TBoolean
  | VNum _ => TNumber
  | VStr _ => TString
  | VArr _ => TObject
  | VObj _ => TObject
  | VBuiltin ObjectPrototype => TObject
  | VBuiltin _ => TFunction
  end.

Definition jstype_eqb (a b : jstype) : bool :=
  match a, b with
  | TUndefined, TUndefined | TObject, TObject | TBoolean, TBoolean
  | TNumber, TNumber | TString, TString | TFunction, TFunction => true
  | _, _ => false
  end.

(** ToBoolean. *)
Definition truthy (v : value) : bool :=
  match v with
  | VUndefined | VNull => false
  | VBool b => b
  | VNum n => negb (num_is_zero n)
  | VStr s => negb (isEmpty s)
  | VArr _ | VObj _ | VBuiltin _ => true
  end.

Definition nullish (v : value) : bool :=
  match v with
  | VUndefined | VNull => true
  | _ => false
  end.

Definition Array_isArray (v : value) : bool :=
  match v with
  | VArr _ => true
  | _ => false
  end.

Definition array_items (v : value) : list value :=
  match v with
  | VArr l => l
  | _ => []
  end.

(** [v !== undefined] *)
Definition is_defined (v : value) : bool :=
  match v with
  | VUndefined => false
  | _ => true
  end.

(** ** Exceptions *)

(** Instances of [Error] and of the two subclasses the engine raises. *)
Inductive jserror :=
| Error (message : list N)
| TypeError (message : list N)
| SyntaxError (message : list N).

Definition message (e : jserror) : list N :=
  match e with
  | Error m | TypeError m | SyntaxError m => m
  end.

(** What a [throw] or a rejected promise carries: an instance of [Error],
    or any other value (an error object of the settings store, say). *)
Inductive thrown :=
| ThrownError (e : jserror)
| ThrownValue (v : value).

(** [x instanceof Error] *)
Definition instanceofError (x : thrown) : bool :=
  match x with
  | ThrownError _ => true
  | ThrownValue _ => false
  end.

Inductive result (E A : Type) :=
| Ok (a : A)
| Throw (e : E).
Arguments Ok {E A} a.
Arguments Throw {E A} e.

Definition rbind {E A B} (r : result E A) (k : A -> result E B) : result E B :=
  match r with
  | Ok a => k a
  | Throw e => Throw e
  end.

(** [try { r } catch (e) { h e }] *)
Definition rcatch {E F A} (r : result E A) (h : E -> result F A) : result F A :=
  match r with
  | Ok a => Ok a
  | Throw e => h e
  end.

Notation "x <- e ;; k" := (rbind e (fun x => k))
  (at level 100, e at next level, right associativity).

(** ** The engine

    What the JavaScript engine supplies and the module does not define:
    [JSON.parse] on a string (the message of the SyntaxError, or the
    value), ToString on a value that is not a string, and the messages of
    the engine's own TypeErrors. *)
Record Engine := {
  JSON_parse : list N -> list N + value;
  ToString_other : value -> list N;
  msg_cannot_read : value -> list N -> list N;
  msg_not_a_function : list N -> list N
}.

(** The names [Object.prototype] defines (ECMA-262, with Annex B). *)
Definition objectPrototypeMethods : list (list N) :=
  [ js "__defineGetter__"; js "__defineSetter__"; js "hasOwnProperty";
    js "__lookupGetter__"; js "__lookupSetter__"; js "isPrototypeOf";
    js "propertyIsEnumerable"; js "toString"; js "valueOf";
    js "toLocaleString" ].

(** A read of [k] that reaches [Object.prototype]. *)
Definition objectPrototype (k : list N) : option builtin :=
  if decide (k = js "constructor") then Some ObjectConstructor
  else if decide (k = js "__proto__") then Some ObjectPrototype
  else if decide (k ∈ objectPrototypeMethods) then Some (ObjectPrototypeMethod k)
  else None.

(** The array index a property name denotes, if it is a canonical one. *)
Fixpoint digits_value (acc : N) (s : list N) : option N :=
  match s with
  | [] => Some acc
  | c :: s' =>
      if ((48 <=? c) && (c <=? 57))%N
      then digits_value (acc * 10 + (c - 48))%N s'
      else None
  end.

Definition index_of_key (k : list N) : option nat :=
  match k with
  | [] => None
  | [48%N] => Some 0%nat
  | 48%N :: _ => None
  | _ => N.to_nat <$> digits_value 0 k
  end.

Section Engine.

Variable E : Engine.

Definition ToString (v : value) : list N :=
  match v with
  | VStr s => s
  | _ => ToString_other E v
  end.

(** The property read [v.k] or [v[k]].  An object has its own properties
    and those of [Object.prototype]; an array and a string have their
    indices and [length].  The members an array, a string, a number, a
    boolean or a built-in inherits are not modelled: the module reads from
    such values only the names [listings], [make], [model], [year],
    [mileage], [price], [co2], [power_kw], [power_hp], [number_of_doors],
    [number_of_seats], [fuel_type], [error], [message], [choices],
    [content] and [0], none of which they define. *)
Definition js_get (v : value) (k : list N) : result jserror value :=
  match v with
  | VUndefined | VNull => Throw (TypeError (msg_cannot_read E v k))
  | VObj o =>
      match o !! k with
      | Some x => Ok x
      | None =>
          match objectPrototype k with
          | Some b => Ok (VBuiltin b)
          | None => Ok VUndefined
          end
      end
  | VArr l =>
      if decide (k = js "length") then Ok (VNum (num_of_Z (Z.of_nat (length l))))
      else match index_of_key k with
           | Some i => Ok (default VUndefined (l !! i))
           | None => Ok VUndefined
           end
  | VStr s =>
      if decide (k = js "length") then Ok (VNum (num_of_Z (Z.of_nat (length s))))
      else match index_of_key k with
           | Some i => Ok (from_option (fun c => VStr [c]) VUndefined (s !! i))
           | None => Ok VUndefined
           end
  | VBool _ | VNum _ | VBuiltin _ => Ok VUndefined
  end.

(** [v?.k] *)
Definition js_get_opt (v : value) (k : list N) : result jserror value :=
  if nullish v then Ok VUndefined else js_get v k.

(** [v.k = x] and [delete v.k] on an object. *)
Definition js_set (v : value) (k : list N) (x : value) : value :=
  match v with
  | VObj o => VObj (<[k := x]> o)
  | _ => v
  end.

Definition js_delete (v : value) (k : list N) : value :=
  match v with
  | VObj o => VObj (delete k o)
  | _ => v
  end.

(** The call [v.toLowerCase()]: only a string has the method; a value
    from [JSON.parse] holds no function, so on anything else the call
    raises a TypeError. *)
Definition call_toLowerCase (name : list N) (v : value) : result jserror value :=
  match v with
  | VStr s => Ok (VStr (toLowerCase s))
  | VUndefined | VNull => Throw (TypeError (msg_cannot_read E v (js "toLowerCase")))
  | _ => Throw (TypeError (msg_not_a_function E name))
  end.

(** ** Response normalizer *)

Definition parseAIResponse (text : list N) : result jserror (list value) :=
  rcatch
    (parsed <- match JSON_parse E text with
               | inl m => Throw (SyntaxError m)
               | inr v => Ok v
               end ;;
     listings <- js_get parsed (js "listings") ;;
     if truthy listings && Array_isArray listings then Ok (array_items listings)
     else if Array_isArray parsed then Ok (array_items parsed)
     else if jstype_eqb (typeof parsed) TObject then Ok [parsed]
     else Throw (Error (js "Invalid response format")))
    (fun parseError =>
       Throw (Error (js "Failed to parse AI response: " ++ message parseError))).

End Engine.

(** ** Listing validator *)

(** The entries of the object literal [fuelTypeMap]. *)
Definition fuelTypeEntries : list (list N * value) :=
  [ (js "gasoline", VStr (js "Petrol"));
    (js "gas", VStr (js "Petrol"));
    (js "petrol", VStr (js "Petrol"));
    (js "diesel", VStr (js "Diesel"));
    (js "electric", VStr (js "Electric"));
    (js "hybrid", VStr (js "Hybrid"));
    (js "plug-in hybrid", VStr (js "Plug-in Hybrid"));
    (js "plugin hybrid", VStr (js "Plug-in Hybrid"));
    (js "phev", VStr (js "Plug-in Hybrid")) ].

Definition fuelTypeMap : gmap (list N) value := list_to_map fuelTypeEntries.

(** [typeof v !== 'string' || !v.trim()] *)
Definition not_filled_string (v : value) : bool :=
  match v with
  | VStr s => isEmpty (trim s)
  | _ => true
  end.

(** [typeof v !== 'number' || v < 0] *)
Definition not_nonneg_number (v : value) : bool :=
  match v with
  | VNum n => num_ltb n (num_of_Z 0)
  | _ => true
  end.

(** [typeof v !== 'number' || v < 1900 || v > currentYear + 1] *)
Definition not_year (currentYear : Z) (v : value) : bool :=
  match v with
  | VNum n => num_ltb n (num_of_Z 1900) || num_ltb (num_of_Z (currentYear + 1)) n
  | _ => true
  end.

(** [v !== undefined] followed by the test of an optional number. *)
Definition bad_optional (v : value) : bool :=
  is_defined v && not_nonneg_number v.

Section Validator.

Variable E : Engine.

(** The value of [new Date().getFullYear()] at the call. *)
Variable currentYear : Z.

(** The body of the [try] block: the returned boolean and the listing as
    the body leaves it. *)
Definition validateListing_try (listing : value) : result jserror (bool * value) :=
  if negb (truthy listing) || negb (jstype_eqb (typeof listing) TObject)
  then Ok (false, listing)
  else
    make <- js_get E listing (js "make") ;;
    model <- js_get E listing (js "model") ;;
    year <- js_get E listing (js "year") ;;
    mileage <- js_get E listing (js "mileage") ;;
    price <- js_get E listing (js "price") ;;
    if not_filled_string make || not_filled_string model
       || not_year currentYear year
       || not_nonneg_number mileage || not_nonneg_number price
    then Ok (false, listing)
    else
      co2 <- js_get E listing (js "co2") ;;
      if bad_optional co2 then Ok (false, listing) else
      power_kw <- js_get E listing (js "power_kw") ;;
      if bad_optional power_kw then Ok (false, listing) else
      power_hp <- js_get E listing (js "power_hp") ;;
      if bad_optional power_hp then Ok (false, listing) else
      number_of_doors <- js_get E listing (js "number_of_doors") ;;
      if bad_optional number_of_doors then Ok (false, listing) else
      number_of_seats <- js_get E listing (js "number_of_seats") ;;
      if bad_optional number_of_seats then Ok (false, listing) else
      fuel_type <- js_get E listing (js "fuel_type") ;;
      if truthy fuel_type then
        key <- call_toLowerCase E (js "listing.fuel_type.toLowerCase") fuel_type ;;
        normalizedFuelType <- js_get E (VObj fuelTypeMap) (ToString E key) ;;
        if truthy normalizedFuelType
        then Ok (true, js_set listing (js "fuel_type") normalizedFuelType)
        else Ok (true, js_delete listing (js "fuel_type"))
      else Ok (true, listing).

(** [validateListing]: the boolean it returns, and the listing after the
    call.  The [catch] clause turns an exception of the body into [false];
    the body raises none after it has written to the listing. *)
Definition validateListing (listing : value) : bool * value :=
  match validateListing_try listing with
  | Ok r => r
  | Throw _ => (false, listing)
  end.

(** [parsedListings.filter(validateListing)]: the listings for which the
    validator returns [true], as it leaves them. *)
Definition filter_validateListing (parsedListings : list value) : list value :=
  flat_map (fun listing =>
              let r := validateListing listing in
              if fst r then [snd r] else [])
           parsedListings.

End Validator.

(** ** The collaborators and the asynchronous monad *)

(** The [{ data, error }] a settings RPC resolves to.  The settings are
    text: [data] is a string or [null]. *)
Record rpc_result := {
  rpc_data : option (list N);
  rpc_error : option thrown
}.

(** An outgoing chat-completions request: the endpoint, the bearer token,
    the further headers, and of the body the model, the two message
    contents and the fallback models. *)
Record request := {
  req_url : list N;
  req_bearer : list N;
  req_headers : list (list N * list N);
  req_model : list N;
  req_system : list N;
  req_user : list N;
  req_fallbacks : list (list N)
}.

(** An HTTP response: [response.ok] and what [await response.json()]
    gives. *)
Record response := {
  resp_ok : bool;
  resp_json : result thrown value
}.

Inductive event :=
| EvRpc (fn : list N)
| EvGenerateContent (apiKey model prompt rawData : list N)
| EvFetch (req : request).

(** The world outside the module: the settings store, the Gemini SDK
    (the text of the response, or what [generateContent] or [text()]
    throws), [fetch], and the page origin. *)
Record World := {
  rpc : list N -> rpc_result;
  generateContent : list N -> list N -> list N -> list N -> result thrown (list N);
  fetch : request -> result thrown response;
  window_location_origin : list N
}.

(** A computation takes the calls issued so far and returns its outcome
    with the calls issued when it ends. *)
Definition M (A : Type) : Type := list event -> result thrown A * list event.

Definition mret {A} (a : A) : M A := fun t => (Ok a, t).

Definition throw {A} (x : thrown) : M A := fun t => (Throw x, t).

Definition mbind {A B} (m : M A) (k : A -> M B) : M B :=
  fun t =>
    match m t with
    | (Ok a, t') => k a t'
    | (Throw x, t') => (Throw x, t')
    end.

Definition mcatch {A} (m : M A) (h : thrown -> M A) : M A :=
  fun t =>
    match m t with
    | (Ok a, t') => (Ok a, t')
    | (Throw x, t') => h x t'
    end.

(** A remote call: it is recorded, and the world answers. *)
Definition call {A} (ev : event) (answer : result thrown A) : M A :=
  fun t => (answer, t ++ [ev]).

Definition lift_result {A} (r : result thrown A) : M A := fun t => (r, t).

Definition lift_sync {A} (r : result jserror A) : M A :=
  fun t =>
    match r with
    | Ok a => (Ok a, t)
    | Throw e => (Throw (ThrownError e), t)
    end.

Notation "x <~ e ;; k" := (mbind e (fun x => k))
  (at level 100, e at next level, right associativity).

(** [s || d] on a string that may be [null]. *)
Definition or_default (s : option (list N)) (d : list N) : list N :=
  match s with
  | Some (c :: r) => c :: r
  | _ => d
  end.

Definition truthy_thrown (x : thrown) : bool :=
  match x with
  | ThrownError _ => true
  | ThrownValue v => truthy v
  end.

(** [if (error) throw error;] *)
Definition throw_if (error : option thrown) : M unit :=
  match error with
  | Some x => if truthy_thrown x then throw x else mret tt
  | None => mret tt
  end.

(** [!apiKey?.trim()], with [None] for [null] and [undefined]. *)
Definition blank_key (apiKey : option (list N)) : bool :=
  match apiKey with
  | Some k => isEmpty (trim k)
  | None => true
  end.

(** ** Settings accessor *)

Inductive settings :=
| GeminiSettings (gemini_api_key gemini_prompt : list N)
| DeepseekSettings (deepseek_api_key deepseek_prompt : list N)
| OpenRouterSettings (openrouter_api_key openrouter_prompt site_url site_name : list N).

Definition ai_provider (s : settings) : list N :=
  match s with
  | GeminiSettings _ _ => js "gemini"
  | DeepseekSettings _ _ => js "deepseek"
  | OpenRouterSettings _ _ _ _ => js "openrouter"
  end.

Section Pipeline.

Variable E : Engine.
Variable W : World.
Variable currentYear : Z.

Definition supabase_rpc (fn : list N) : M rpc_result :=
  call (EvRpc fn) (Ok (rpc W fn)).

Definition getSettings : M settings :=
  mcatch
    (provider <~ supabase_rpc (js "get_ai_provider") ;;
     _ <~ throw_if (rpc_error provider) ;;
     let currentProvider := or_default (rpc_data provider) (js "gemini") in
     if decide (currentProvider = js "gemini") then
       apiKey <~ supabase_rpc (js "get_gemini_apikey") ;;
       prompt <~ supabase_rpc (js "get_gemini_prompt") ;;
       _ <~ throw_if (rpc_error apiKey) ;;
       _ <~ throw_if (rpc_error prompt) ;;
       mret (GeminiSettings (or_default (rpc_data apiKey) [])
                            (or_default (rpc_data prompt) []))
     else if decide (currentProvider = js "deepseek") then
       apiKey <~ supabase_rpc (js "get_deepseek_apikey") ;;
       prompt <~ supabase_rpc (js "get_deepseek_prompt") ;;
       _ <~ throw_if (rpc_error apiKey) ;;
       _ <~ throw_if (rpc_error prompt) ;;
       mret (DeepseekSettings (or_default (rpc_data apiKey) [])
                              (or_default (rpc_data prompt) []))
     else if decide (currentProvider = js "openrouter") then
       apiKey <~ supabase_rpc (js "get_openrouter_apikey") ;;
       prompt <~ supabase_rpc (js "get_openrouter_prompt") ;;
       siteUrl <~ supabase_rpc (js "get_openrouter_site_url") ;;
       siteName <~ supabase_rpc (js "get_openrouter_site_name") ;;
       _ <~ throw_if (rpc_error apiKey) ;;
       _ <~ throw_if (rpc_error prompt) ;;
       _ <~ throw_if (rpc_error siteUrl) ;;
       _ <~ throw_if (rpc_error siteName) ;;
       mret (OpenRouterSettings
               (or_default (rpc_data apiKey) [])
               (or_default (rpc_data prompt) [])
               (or_default (rpc_data siteUrl) (window_location_origin W))
               (or_default (rpc_data siteName) (js "BananaDB")))
     else
       throw (ThrownError (Error (js "Unknown AI provider: " ++ currentProvider))))
    (fun error =>
       throw (if instanceofError error then error
              else ThrownError (Error (js "Failed to load AI settings")))).

(** ** Provider adapters *)

Definition parseWithGemini (prompt rawData : list N) (apiKey : option (list N))
  : M (list value) :=
  if blank_key apiKey
  then throw (ThrownError (Error (js "Gemini API key is required")))
  else
    let key := trim (default [] apiKey) in
    mcatch
      (text <~ call (EvGenerateContent key (js "gemini-pro") prompt rawData)
                    (generateContent W key (js "gemini-pro") prompt rawData) ;;
       lift_sync (parseAIResponse E text))
      (fun error => throw error).

(** [data.choices[0]?.message?.content] *)
Definition first_choice_content (data : value) : result jserror value :=
  choices <- js_get E data (js "choices") ;;
  choice <- js_get E choices (js "0") ;;
  msg <- js_get_opt E choice (js "message") ;;
  js_get_opt E msg (js "content").

(** [error.error?.message || fallback] *)
Definition error_message_or (error : value) (fallback : list N) : result jserror value :=
  inner <- js_get E error (js "error") ;;
  m <- js_get_opt E inner (js "message") ;;
  Ok (if truthy m then m else VStr fallback).

(** What the two HTTP adapters do with the request once it is built. *)
Definition chat_completion (req : request) (provider : list N) : M (list value) :=
  mcatch
    (response <~ call (EvFetch req) (fetch W req) ;;
     if negb (resp_ok response) then
       error <~ lift_result (resp_json response) ;;
       m <~ lift_sync (error_message_or error
                         (js "Failed to get response from " ++ provider)) ;;
       throw (ThrownError (Error (ToString E m)))
     else
       data <~ lift_result (resp_json response) ;;
       content <~ lift_sync (first_choice_content data) ;;
       if negb (truthy content)
       then throw (ThrownError (Error (js "No content in " ++ provider ++ js " response")))
       else lift_sync (parseAIResponse E (ToString E content)))
    (fun error => throw error).

Definition parseWithDeepseek (prompt rawData : list N) (apiKey : option (list N))
  : M (list value) :=
  if blank_key apiKey
  then throw (ThrownError (Error (js "Deepseek API key is required")))
  else
    chat_completion
      {| req_url := js "https://api.deepseek.com/v1/chat/completions";
         req_bearer := trim (default [] apiKey);
         req_headers := [];
         req_model := js "deepseek-chat";
         req_system := prompt;
         req_user := rawData;
         req_fallbacks := [] |}
      (js "Deepseek").

Definition parseWithOpenRouter (prompt rawData : list N) (apiKey : option (list N))
    (siteUrl siteName : list N) : M (list value) :=
  if blank_key apiKey
  then throw (ThrownError (Error (js "OpenRouter API key is required")))
  else
    chat_completion
      {| req_url := js "https://openrouter.ai/api/v1/chat/completions";
         req_bearer := trim (default [] apiKey);
         req_headers := [(js "HTTP-Referer", siteUrl); (js "X-Title", siteName)];
         req_model := js "deepseek/deepseek-r1:free";
         req_system := prompt;
         req_user := rawData;
         req_fallbacks := [js "anthropic/claude-3-sonnet"; js "gryphe/mythomax-l2-13b"] |}
      (js "OpenRouter").

(** ** Orchestration *)

(** The [switch] of [parseCarListing]: the credential and prompt checks
    and the call of the adapter of the active provider. *)
Definition call_provider (s : settings) (rawData : list N) : M (list value) :=
  match s with
  | OpenRouterSettings openrouter_api_key openrouter_prompt site_url site_name =>
      if isEmpty openrouter_api_key
      then throw (ThrownError (Error (js "OpenRouter API key is required")))
      else if isEmpty openrouter_prompt
      then throw (ThrownError (Error (js "OpenRouter prompt is required")))
      else parseWithOpenRouter openrouter_prompt rawData (Some openrouter_api_key)
             (or_default (Some site_url) (window_location_origin W))
             (or_default (Some site_name) (js "BananaDB"))
  | DeepseekSettings deepseek_api_key deepseek_prompt =>
      if isEmpty deepseek_api_key
      then throw (ThrownError (Error (js "Deepseek API key is required")))
      else if isEmpty deepseek_prompt
      then throw (ThrownError (Error (js "Deepseek prompt is required")))
      else parseWithDeepseek deepseek_prompt rawData (Some deepseek_api_key)
  | GeminiSettings gemini_api_key gemini_prompt =>
      if isEmpty gemini_api_key
      then throw (ThrownError (Error (js "Gemini API key is required")))
      else if isEmpty gemini_prompt
      then throw (ThrownError (Error (js "Gemini prompt is required")))
      else parseWithGemini gemini_prompt rawData (Some gemini_api_key)
  end.

Definition parseCarListing (rawData : list N) : M (list value) :=
  if isEmpty (trim rawData)
  then throw (ThrownError (Error (js "No data provided")))
  else
    mcatch
      (settings <~ getSettings ;;
       parsedListings <~ call_provider settings rawData ;;
       let validListings := filter_validateListing E currentYear parsedListings in
       if (length validListings =? 0)%nat
       then throw (ThrownError (Error (js "No valid listings found in the response")))
       else mret validListings)
      (fun error =>
         throw (if instanceofError error then error
                else ThrownError (Error (js "Failed to parse car listing data")))).

End Pipeline.

(** ** A sample engine

    The theorems below hold for every engine and every world.  The concrete
    runs use the engine defined here: a reader of JSON text and the messages
    of V8.  Its reader keeps the exact value of a number literal; its
    ToString covers the values whose text is the same on every engine (not
    the numbers that are not integers, which print as their integer
    part). *)

Definition is_digit (c : N) : bool := ((48 <=? c) && (c <=? 57))%N.

Definition is_json_ws (c : N) : bool :=
  ((c =? 32) || (c =? 9) || (c =? 10) || (c =? 13))%N.

Fixpoint skip_ws (s : list N) : list N :=
  match s with
  | c :: r => if is_json_ws c then skip_ws r else s
  | [] => []
  end.

Fixpoint span_digits (s : list N) : list N * list N :=
  match s with
  | c :: r => if is_digit c then let (d, r') := span_digits r in (c :: d, r') else ([], s)
  | [] => ([], [])
  end.

Definition digits_N (d : list N) : N := default 0%N (digits_value 0 d).

Definition hex_value (c : N) : option N :=
  if is_digit c then Some (c - 48)%N
  else if ((97 <=? c) && (c <=? 102))%N then Some (c - 87)%N
  else if ((65 <=? c) && (c <=? 70))%N then Some (c - 55)%N
  else None.

Definition unescape (c : N) : option N :=
  if (c =? 34)%N then Some 34%N
  else if (c =? 92)%N then Some 92%N
  else if (c =? 47)%N then Some 47%N
  else if (c =? 98)%N then Some 8%N
  else if (c =? 102)%N then Some 12%N
  else if (c =? 110)%N then Some 10%N
  else if (c =? 114)%N then Some 13%N
  else if (c =? 116)%N then Some 9%N
  else None.

(** The characters of a string literal after its opening quote. *)
Fixpoint read_chars (s : list N) (acc : list N) : option (list N * list N) :=
  match s with
  | [] => None
  | c :: r =>
      if (c =? 34)%N then Some (rev acc, r)
      else if (c =? 92)%N then
        match r with
        | e :: r1 =>
            if (e =? 117)%N then
              match r1 with
              | a :: b :: c' :: d :: r2 =>
                  match hex_value a, hex_value b, hex_value c', hex_value d with
                  | Some a, Some b, Some c', Some d =>
                      read_chars r2 ((((a * 16 + b) * 16 + c') * 16 + d)%N :: acc)
                  | _, _, _, _ => None
                  end
              | _ => None
              end
            else match unescape e with
                 | Some u => read_chars r1 (u :: acc)
                 | None => None
                 end
        | [] => None
        end
      else if (c <? 32)%N then None
      else read_chars r (c :: acc)
  end.

(** [m * 10 ^ e] *)
Definition scale10 (m e : Z) : Q :=
  if (0 <=? e)%Z then inject_Z (m * 10 ^ e)
  else Qmake m (Z.to_pos (10 ^ (- e))).

Definition read_number (s : list N) : option (number * list N) :=
  let (neg, s1) := match s with
                   | c :: r => if (c =? 45)%N then (true, r) else (false, s)
                   | [] => (false, s)
                   end in
  let (ip, s2) := span_digits s1 in
  let leading_zero := match ip with
                      | c :: _ :: _ => (c =? 48)%N
                      | _ => false
                      end in
  if isEmpty ip || leading_zero then None else
  let frac := match s2 with
              | c :: r =>
                  if (c =? 46)%N
                  then let (fp, r') := span_digits r in
                       if isEmpty fp then None else Some (fp, r')
                  else Some ([], s2)
              | [] => Some ([], s2)
              end in
  match frac with
  | None => None
  | Some (fp, s3) =>
      let expo :=
        match s3 with
        | c :: r =>
            if ((c =? 101) || (c =? 69))%N then
              let (eneg, r1) := match r with
                                | c1 :: r' =>
                                    if (c1 =? 45)%N then (true, r')
                                    else if (c1 =? 43)%N then (false, r')
                                    else (false, r)
                                | [] => (false, r)
                                end in
              let (ep, r2) := span_digits r1 in
              if isEmpty ep then None
              else Some (if eneg then (- Z.of_N (digits_N ep))%Z
                         else Z.of_N (digits_N ep), r2)
            else Some (0%Z, s3)
        | [] => Some (0%Z, s3)
        end in
      match expo with
      | None => None
      | Some (e, s4) =>
          let m := Z.of_N (digits_N (ip ++ fp)) in
          let q := scale10 (if neg then (- m)%Z else m) (e - Z.of_nat (length fp)) in
          Some (Finite q, s4)
      end
  end.

Definition starts_with (p s : list N) : option (list N) :=
  if decide (take (length p) s = p) then Some (drop (length p) s) else None.

Fixpoint read_value (fuel : nat) (s : list N) : option (value * list N) :=
  match fuel with
  | O => None
  | S fuel =>
      match skip_ws s with
      | [] => None
      | c :: r =>
          if (c =? 34)%N then
            match read_chars r [] with
            | Some (str, r') => Some (VStr str, r')
            | None => None
            end
          else if (c =? 91)%N then
            match skip_ws r with
            | c1 :: r1 =>
                if (c1 =? 93)%N then Some (VArr [], r1)
                else read_elements fuel r []
            | [] => None
            end
          else if (c =? 123)%N then
            match skip_ws r with
            | c1 :: r1 =>
                if (c1 =? 125)%N then Some (VObj ∅, r1)
                else read_members fuel r ∅
            | [] => None
            end
          else if (c =? 45)%N || is_digit c then
            match read_number (c :: r) with
            | Some (n, r') => Some (VNum n, r')
            | None => None
            end
          else
            match starts_with (js "null") (c :: r),
                  starts_with (js "true") (c :: r),
                  starts_with (js "false") (c :: r) with
            | Some r', _, _ => Some (VNull, r')
            | _, Some r', _ => Some (VBool true, r')
            | _, _, Some r' => Some (VBool false, r')
            | _, _, _ => None
            end
      end
  end
with read_elements (fuel : nat) (s : list N) (acc : list value)
  : option (value * list N) :=
  match fuel with
  | O => None
  | S fuel =>
      match read_value fuel s with
      | Some (v, r) =>
          match skip_ws r with
          | c :: r' =>
              if (c =? 44)%N then read_elements fuel r' (v :: acc)
              else if (c =? 93)%N then Some (VArr (rev (v :: acc)), r')
              else None
          | [] => None
          end
      | None => None
      end
  end
with read_members (fuel : nat) (s : list N) (acc : gmap (list N) value)
  : option (value * list N) :=
  match fuel with
  | O => None
  | S fuel =>
      match skip_ws s with
      | c :: r =>
          if (c =? 34)%N then
            match read_chars r [] with
            | Some (k, r1) =>
                match skip_ws r1 with
                | c1 :: r2 =>
                    if (c1 =? 58)%N then
                      match read_value fuel r2 with
                      | Some (v, r3) =>
                          match skip_ws r3 with
                          | c2 :: r4 =>
                              if (c2 =? 44)%N then read_members fuel r4 (<[k := v]> acc)
                              else if (c2 =? 125)%N then Some (VObj (<[k := v]> acc), r4)
                              else None
                          | [] => None
                          end
                      | None => None
                      end
                    else None
                | [] => None
                end
            | None => None
            end
          else None
      | [] => None
      end
  end.

Definition sample_JSON_parse (text : list N) : list N + value :=
  match read_value (S (length text)) text with
  | Some (v, r) =>
      if isEmpty (skip_ws r) then inr v
      else inl (js "Unexpected non-whitespace character after JSON")
  | None => inl (js "Unexpected token in JSON")
  end.

Fixpoint uint_digits (u : Decimal.uint) : list N :=
  match u with
  | Decimal.Nil => []
  | Decimal.D0 u => 48%N :: uint_digits u
  | Decimal.D1 u => 49%N :: uint_digits u
  | Decimal.D2 u => 50%N :: uint_digits u
  | Decimal.D3 u => 51%N :: uint_digits u
  | Decimal.D4 u => 52%N :: uint_digits u
  | Decimal.D5 u => 53%N :: uint_digits u
  | Decimal.D6 u => 54%N :: uint_digits u
  | Decimal.D7 u => 55%N :: uint_digits u
  | Decimal.D8 u => 56%N :: uint_digits u
  | Decimal.D9 u => 57%N :: uint_digits u
  end.

Definition print_Z (z : Z) : list N :=
  (if (z <? 0)%Z then js "-" else []) ++ uint_digits (N.to_uint (Z.abs_N z)).

Fixpoint sample_ToString (v : value) : list N :=
  match v with
  | VUndefined => js "undefined"
  | VNull => js "null"
  | VBool true => js "true"
  | VBool false => js "false"
  | VNum (Finite q) => print_Z (Z.quot (Qnum q) (Z.pos (Qden q)))
  | VNum PosInfinity => js "Infinity"
  | VNum NegInfinity => js "-Infinity"
  | VStr s => s
  | VArr l =>
      (fix join (l : list value) : list N :=
         match l with
         | [] => []
         | x :: r =>
             (if nullish x then [] else sample_ToString x)
               ++ match r with [] => [] | _ => js "," ++ join r end
         end) l
  | VObj _ => js "[object Object]"
  | VBuiltin ObjectConstructor => js "function Object() { [native code] }"
  | VBuiltin ObjectPrototype => js "[object Object]"
  | VBuiltin (ObjectPrototypeMethod name) =>
      js "function " ++ name ++ js "() { [native code] }"
  end.

Definition V8 : Engine := {|
  JSON_parse := sample_JSON_parse;
  ToString_other := sample_ToString;
  msg_cannot_read := fun v k =>
    js "Cannot read properties of " ++ sample_ToString v
      ++ js " (reading '" ++ k ++ js "')";
  msg_not_a_function := fun name => name ++ js " is not a function"
|}.

(** JSON text written with ['] for the double quote. *)
Definition json_text (s : string) : list N :=
  List.map (fun c => if (c =? 39)%N then 34%N else c) (js s).

(** A world whose settings store holds the given provider tag, a key and
    a prompt for every provider, and whose model answers [reply]. *)
Definition sample_world (provider : option (list N)) (reply : list N) : World := {|
  rpc := fun fn =>
    if decide (fn = js "get_ai_provider")
    then {| rpc_data := provider; rpc_error := None |}
    else if decide (fn = js "get_openrouter_site_url")
    then {| rpc_data := None; rpc_error := None |}
    else {| rpc_data := Some (js "configured"); rpc_error := None |};
  generateContent := fun _ _ _ _ => Ok reply;
  fetch := fun _ =>
    Ok {| resp_ok := true;
          resp_json :=
            Ok (VObj {[ js "choices" :=
                  VArr [VObj {[ js "message" :=
                                  VObj {[ js "content" := VStr reply ]} ]}] ]}) |};
  window_location_origin := js "https://bananadb.example"
|}.

(** A listing with the five required fields. *)
Definition car (year : number) : gmap (list N) value :=
  <[ js "make" := VStr (js "Toyota") ]>
  (<[ js "model" := VStr (js "Corolla") ]>
  (<[ js "year" := VNum year ]>
  (<[ js "mileage" := VNum (num_of_Z 40000) ]>
  (<[ js "price" := VNum (num_of_Z 12000) ]> ∅)))).

(** The 2019 car with a [fuel_type]. *)
Definition car_with_fuel_type (fuel_type : value) : gmap (list N) value :=
  <[ js "fuel_type" := fuel_type ]> (car (num_of_Z 2019)).

(** The reply of the specification's example: one listing, its [make]
    blank. *)
Definition blank_make_reply : list N :=
  json_text "{'listings':[{'make':'','model':'X','year':2020,'mileage':0,'price':0}]}".

(** The sample world with a provider call that throws [x]. *)
Definition failing_world (provider : option (list N)) (x : thrown) : World := {|
  rpc := rpc (sample_world provider []);
  generateContent := fun _ _ _ _ => Throw x;
  fetch := fun _ => Throw x;
  window_location_origin := js "https://bananadb.example"
|}.

(** The sample world with a store whose read of the provider tag comes
    with the error [x]. *)
Definition store_error_world (x : thrown) : World := {|
  rpc := fun fn =>
    if decide (fn = js "get_ai_provider")
    then {| rpc_data := None; rpc_error := Some x |}
    else {| rpc_data := Some (js "configured"); rpc_error := None |};
  generateContent := fun _ _ _ _ => Ok [];
  fetch := fun _ => Throw x;
  window_location_origin := js "https://bananadb.example"
|}.

(** The sample world with [fetch] answering [resp]. *)
Definition http_world (resp : response) : World := {|
  rpc := rpc (sample_world (Some (js "deepseek")) []);
  generateContent := fun _ _ _ _ => Ok [];
  fetch := fun _ => Ok resp;
  window_location_origin := js "https://bananadb.example"
|}.

Definition sample_request : request := {|
  req_url := js "https://api.deepseek.com/v1/chat/completions";
  req_bearer := js "configured";
  req_headers := [];
  req_model := js "deepseek-chat";
  req_system := js "configured";
  req_user := js "2019 Toyota Corolla";
  req_fallbacks := []
|}.

(** The body [{"error": {"message": "Rate limit reached"}}]. *)
Definition rate_limit_body : gmap (list N) value :=
  {[ js "error" := VObj {[ js "message" := VStr (js "Rate limit reached") ]} ]}.

(** The one-listing reply of the specification's example. *)
Definition toyota_reply : list N :=
  json_text "{'listings':[{'make':'Toyota','model':'Corolla','year':2019,'mileage':40000,'price':12000}]}".

(** ** The specification's reading of a candidate record *)

(** [x <= y] on numbers. *)
Definition num_le (x y : number) : Prop :=
  match x, y with
  | NegInfinity, _ => True
  | _, PosInfinity => True
  | Finite p, Finite q => (p <= q)%Q
  | _, _ => False
  end.

(** The field [k] of a candidate, [undefined] when it has none. *)
Definition field (candidate : value) (k : list N) : value :=
  match candidate with
  | VObj o => default VUndefined (o !! k)
  | _ => VUndefined
  end.

Definition is_object (candidate : value) : Prop :=
  match candidate with
  | VObj _ | VArr _ => True
  | _ => False
  end.

(** A string that is non-empty after trimming. *)
Definition filled_text (v : value) : Prop :=
  exists s, v = VStr s /\ trim s <> [].

(** A number in [[lo, hi]]. *)
Definition number_within (lo hi : Z) (v : value) : Prop :=
  exists n, v = VNum n /\ num_le (num_of_Z lo) n /\ num_le n (num_of_Z hi).

(** A number [>= 0]. *)
Definition nonneg_number (v : value) : Prop :=
  exists n, v = VNum n /\ num_le (num_of_Z 0) n.

Definition optional_fields : list (list N) :=
  [ js "co2"; js "power_kw"; js "power_hp";
    js "number_of_doors"; js "number_of_seats" ].

(** The conditions of rejection the specification lists. *)
Definition listed_rejection (currentYear : Z) (c : value) : Prop :=
  ~ is_object c
  \/ ~ filled_text (field c (js "make"))
  \/ ~ filled_text (field c (js "model"))
  \/ ~ number_within 1900 (currentYear + 1) (field c (js "year"))
  \/ ~ nonneg_number (field c (js "mileage"))
  \/ ~ nonneg_number (field c (js "price"))
  \/ exists k, k ∈ optional_fields
               /\ field c k <> VUndefined /\ ~ nonneg_number (field c k).

(** A [fuel_type] that is truthy and not a string: the one input on which
    the body of the validator raises. *)
Definition fuel_type_not_text (c : value) : Prop :=
  truthy (field c (js "fuel_type")) = true
  /\ typeof (field c (js "fuel_type")) <> TString.

(** The synonym table as the specification states it. *)
Definition synonym (k canonical : list N) : Prop :=
  ((k = js "gasoline" \/ k = js "gas" \/ k = js "petrol") /\ canonical = js "Petrol")
  \/ (k = js "diesel" /\ canonical = js "Diesel")
  \/ (k = js "electric" /\ canonical = js "Electric")
  \/ (k = js "hybrid" /\ canonical = js "Hybrid")
  \/ ((k = js "plug-in hybrid" \/ k = js "plugin hybrid" \/ k = js "phev")
      /\ canonical = js "Plug-in Hybrid").

Definition scalar_or_null (v : value) : Prop :=
  match v with
  | VNull | VBool _ | VNum _ | VStr _ => True
  | _ => False
  end.

Definition recognized_provider (tag : list N) : Prop :=
  tag = js "gemini" \/ tag = js "deepseek" \/ tag = js "openrouter".

(** The error of the normalizer on a value of no accepted shape. *)
Definition invalid_response_format : jserror :=
  Error (js "Failed to parse AI response: " ++ js "Invalid response format").

(** ** The validator on an object, in terms of its fields

    The checks of the validator in the order the code makes them, and its
    last step, written over [field]; [validateListing_try_obj] shows that
    this is what the code computes on an object. *)

Definition required_ok (currentYear : Z) (c : value) : bool :=
  negb (not_filled_string (field c (js "make"))
        || not_filled_string (field c (js "model"))
        || not_year currentYear (field c (js "year"))
        || not_nonneg_number (field c (js "mileage"))
        || not_nonneg_number (field c (js "price"))).

Definition optionals_ok (c : value) : bool :=
  forallb (fun k => negb (bad_optional (field c k))) optional_fields.

Definition fuel_step (E : Engine) (c : value) : result jserror (bool * value) :=
  let fuel_type := field c (js "fuel_type") in
  if truthy fuel_type then
    key <- call_toLowerCase E (js "listing.fuel_type.toLowerCase") fuel_type ;;
    normalizedFuelType <- js_get E (VObj fuelTypeMap) (ToString E key) ;;
    if truthy normalizedFuelType
    then Ok (true, js_set c (js "fuel_type") normalizedFuelType)
    else Ok (true, js_delete c (js "fuel_type"))
  else Ok (true, c).

Definition is_upper (c : N) : bool := ((65 <=? c) && (c <=? 90))%N.

(** ** Readings of the pipeline used by its properties *)

Definition canonical_fuel_types : list (list N) :=
  [ js "Petrol"; js "Diesel"; js "Electric"; js "Hybrid"; js "Plug-in Hybrid" ].

Definition settings_api_key (s : settings) : list N :=
  match s with
  | GeminiSettings k _ | DeepseekSettings k _ | OpenRouterSettings k _ _ _ => k
  end.

Definition settings_prompt (s : settings) : list N :=
  match s with
  | GeminiSettings _ p | DeepseekSettings _ p | OpenRouterSettings _ p _ _ => p
  end.

(** The name of the provider in the error messages. *)
Definition provider_label (s : settings) : list N :=
  match s with
  | GeminiSettings _ _ => js "Gemini"
  | DeepseekSettings _ _ => js "Deepseek"
  | OpenRouterSettings _ _ _ _ => js "OpenRouter"
  end.

(** The reads of the settings store behind a bundle, in the order the
    accessor issues them. *)
Definition settings_reads (s : settings) : list event :=
  EvRpc (js "get_ai_provider") ::
  match s with
  | GeminiSettings _ _ =>
      [EvRpc (js "get_gemini_apikey"); EvRpc (js "get_gemini_prompt")]
  | DeepseekSettings _ _ =>
      [EvRpc (js "get_deepseek_apikey"); EvRpc (js "get_deepseek_prompt")]
  | OpenRouterSettings _ _ _ _ =>
      [EvRpc (js "get_openrouter_apikey"); EvRpc (js "get_openrouter_prompt");
       EvRpc (js "get_openrouter_site_url"); EvRpc (js "get_openrouter_site_name")]
  end.

Definition is_rpc (ev : event) : bool :=
  match ev with
  | EvRpc _ => true
  | _ => false
  end.

(** The one call to the provider of a bundle: the Gemini SDK for Gemini, a
    request to the provider's endpoint for the other two, with the trimmed
    key of the bundle, its prompt and the raw text. *)
Definition provider_call (s : settings) (rawData : list N) (ev : event) : Prop :=
  match s, ev with
  | GeminiSettings k p, EvGenerateContent key model prompt raw =>
      key = trim k /\ model = js "gemini-pro" /\ prompt = p /\ raw = rawData
  | DeepseekSettings k p, EvFetch req =>
      req_url req = js "https://api.deepseek.com/v1/chat/completions"
      /\ req_bearer req = trim k /\ req_system req = p /\ req_user req = rawData
  | OpenRouterSettings k p _ _, EvFetch req =>
      req_url req = js "https://openrouter.ai/api/v1/chat/completions"
      /\ req_bearer req = trim k /\ req_system req = p /\ req_user req = rawData
  | _, _ => False
  end.

(** ** The settings screen

    The state of the [AdminSettings] component that [loadSettings] writes,
    and [loadSettings] as the function from the state before to the state
    after it has run.  The defaults of the array destructuring apply to an
    element that is [undefined]; an RPC resolves to an object, so they never
    do. *)

Record Settings := {
  ui_gemini_api_key : list N;
  ui_gemini_prompt : list N;
  ui_deepseek_api_key : list N;
  ui_deepseek_prompt : list N;
  ui_openrouter_api_key : list N;
  ui_openrouter_prompt : list N;
  ui_site_url : list N;
  ui_site_name : list N;
  ui_ai_provider : list N
}.

Record AdminState := {
  st_loading : bool;
  st_error : option (list N);
  st_settings : Settings
}.

Section AdminSettings.

Variable W : World.

Definition loadSettings (st : AdminState) : M AdminState :=
  let st1 := {| st_loading := true; st_error := None; st_settings := st_settings st |} in
  after <~ mcatch
    (geminiApiKey <~ supabase_rpc W (js "get_gemini_apikey") ;;
     geminiPrompt <~ supabase_rpc W (js "get_gemini_prompt") ;;
     deepseekApiKey <~ supabase_rpc W (js "get_deepseek_apikey") ;;
     deepseekPrompt <~ supabase_rpc W (js "get_deepseek_prompt") ;;
     openrouterApiKey <~ supabase_rpc W (js "get_openrouter_apikey") ;;
     openrouterPrompt <~ supabase_rpc W (js "get_openrouter_prompt") ;;
     siteUrl <~ supabase_rpc W (js "get_openrouter_site_url") ;;
     siteName <~ supabase_rpc W (js "get_openrouter_site_name") ;;
     provider <~ supabase_rpc W (js "get_ai_provider") ;;
     mret {| st_loading := st_loading st1;
             st_error := st_error st1;
             st_settings :=
               {| ui_gemini_api_key := or_default (rpc_data geminiApiKey) [];
                  ui_gemini_prompt := or_default (rpc_data geminiPrompt) [];
                  ui_deepseek_api_key := or_default (rpc_data deepseekApiKey) [];
                  ui_deepseek_prompt := or_default (rpc_data deepseekPrompt) [];
                  ui_openrouter_api_key := or_default (rpc_data openrouterApiKey) [];
                  ui_openrouter_prompt := or_default (rpc_data openrouterPrompt) [];
                  ui_site_url :=
                    or_default (rpc_data siteUrl) (window_location_origin W);
                  ui_site_name := or_default (rpc_data siteName) (js "BananaDB");
                  ui_ai_provider := or_default (rpc_data provider) (js "gemini") |} |})
    (fun err =>
       mret {| st_loading := st_loading st1;
               st_error := Some (match err with
                                 | ThrownError e => message e
                                 | ThrownValue _ => js "Failed to load settings"
                                 end);
               st_settings := st_settings st1 |}) ;;
  mret {| st_loading := false;
          st_error := st_error after;
          st_settings := st_settings after |}.

End AdminSettings.

(** No truthy error came with the read [fn]. *)
Definition read_clean (W : World) (ev : event) : Prop :=
  match ev with
  | EvRpc fn =>
      match rpc_error (rpc W fn) with
      | Some x => truthy_thrown x = false
      | None => True
      end
  | _ => True
  end.

(** The reads of [loadSettings], in the order of its [Promise.all]. *)
Definition screen_reads : list event :=
  [ EvRpc (js "get_gemini_apikey"); EvRpc (js "get_gemini_prompt");
    EvRpc (js "get_deepseek_apikey"); EvRpc (js "get_deepseek_prompt");
    EvRpc (js "get_openrouter_apikey"); EvRpc (js "get_openrouter_prompt");
    EvRpc (js "get_openrouter_site_url"); EvRpc (js "get_openrouter_site_name");
    EvRpc (js "get_ai_provider") ].

(** The fields of the screen that belong to the provider of a bundle. *)
Definition shown_bundle (ui : Settings) (s : settings) : Prop :=
  ui_ai_provider ui = ai_provider s
  /\ match s with
     | GeminiSettings k p => ui_gemini_api_key ui = k /\ ui_gemini_prompt ui = p
     | DeepseekSettings k p => ui_deepseek_api_key ui = k /\ ui_deepseek_prompt ui = p
     | OpenRouterSettings k p u n =>
         ui_openrouter_api_key ui = k /\ ui_openrouter_prompt ui = p
         /\ ui_site_url ui = u /\ ui_site_name ui = n
     end.

(** The state of the settings screen when it mounts. *)
Definition initial_state : AdminState := {|
  st_loading := true;
  st_error := None;
  st_settings :=
    {| ui_gemini_api_key := []; ui_gemini_prompt := [];
       ui_deepseek_api_key := []; ui_deepseek_prompt := [];
       ui_openrouter_api_key := []; ui_openrouter_prompt := [];
       ui_site_url := js "https://bananadb.example";
       ui_site_name := js "BananaDB";
       ui_ai_provider := js "gemini" |}
|}.

(** * Properties *)

(** ** Strings and numbers *)

Lemma trimStart_nil (s : list N) :
  trimStart s = [] <-> Forall (fun c => isWhiteSpace c = true) s.
Proof.
  induction s as [|c s IH]; simpl.
  - split; [constructor | reflexivity].
  - destruct (isWhiteSpace c) eqn:Hc.
    + rewrite IH. split.
      * intros H. constructor; assumption.
      * intros H. inversion H; assumption.
    + split; [discriminate |].
      intros H. inversion H; congruence.
Qed.

Lemma trimStart_head (s : list N) (c : N) (r : list N) :
  trimStart s = c :: r -> isWhiteSpace c = false.
Proof.
  induction s as [|a s IH]; simpl; [discriminate |].
  destruct (isWhiteSpace a) eqn:Ha; [exact IH |].
  intros H. injection H as -> _. exact Ha.
Qed.

Lemma trim_nil (s : list N) :
  trim s = [] <-> Forall (fun c => isWhiteSpace c = true) s.
Proof.
  unfold trim, trimEnd. split.
  - intros H.
    apply (f_equal (@rev N)) in H. rewrite rev_involutive in H. simpl in H.
    apply trimStart_nil in H. apply Forall_rev in H. rewrite rev_involutive in H.
    destruct (trimStart s) as [|c r] eqn:Hs.
    + apply trimStart_nil. exact Hs.
    + apply trimStart_head in Hs. inversion H; congruence.
  - intros H. apply trimStart_nil in H. rewrite H. reflexivity.
Qed.

Lemma isEmpty_true (s : list N) : isEmpty s = true <-> s = [].
Proof. destruct s; simpl; split; congruence. Qed.

Lemma num_ltb_false (x y : number) : num_ltb x y = false <-> num_le y x.
Proof.
  destruct x as [p| |], y as [q| |]; simpl; try tauto; try (split; [discriminate | tauto]).
  rewrite Qle_alt. unfold Qcompare. rewrite (Z.compare_antisym (Qnum q * _)).
  destruct (Qnum q * QDen p ?= Qnum p * QDen q)%Z; simpl; split; congruence.
Qed.

Lemma num_ltb_true (x y : number) : num_ltb x y = true <-> ~ num_le y x.
Proof.
  rewrite <- num_ltb_false. destruct (num_ltb x y); split; congruence.
Qed.

(** ** Response normalizer *)

Section NormalizerFacts.

Variable E : Engine.

Lemma js_get_own (o : gmap (list N) value) (k : list N) :
  objectPrototype k = None ->
  js_get E (VObj o) k = Ok (field (VObj o) k).
Proof.
  intros Hk. unfold js_get, field. rewrite Hk.
  destruct (o !! k); reflexivity.
Qed.

Lemma js_get_array_name (l : list value) (k : list N) :
  k <> js "length" -> index_of_key k = None ->
  js_get E (VArr l) k = Ok VUndefined.
Proof.
  intros Hlen Hidx. unfold js_get. rewrite Hidx.
  destruct (decide (k = js "length")); [contradiction | reflexivity].
Qed.

(** The normalizer once [JSON.parse] has returned [parsed]. *)
Lemma parseAIResponse_parsed (text : list N) (parsed : value) :
  JSON_parse E text = inr parsed ->
  parseAIResponse E text =
    rcatch
      (listings <- js_get E parsed (js "listings") ;;
       if truthy listings && Array_isArray listings then Ok (array_items listings)
       else if Array_isArray parsed then Ok (array_items parsed)
       else if jstype_eqb (typeof parsed) TObject then Ok [parsed]
       else Throw (Error (js "Invalid response format")))
      (fun parseError =>
         Throw (Error (js "Failed to parse AI response: " ++ message parseError))).
Proof. intros H. unfold parseAIResponse. rewrite H. reflexivity. Qed.

(** C1. For every text that parses as JSON, the normalizer dispatches on the
    shape of the parsed value in this order: an object whose field
    [listings] is a list gives that list; otherwise a list gives itself;
    otherwise an object gives the one-element list holding it. *)
Theorem parseAIResponse_shape_dispatch (text : list N) (parsed : value) :
  JSON_parse E text = inr parsed ->
  (forall o l, parsed = VObj o -> o !! js "listings" = Some (VArr l) ->
               parseAIResponse E text = Ok l)
  /\ (forall l, parsed = VArr l -> parseAIResponse E text = Ok l)
  /\ (forall o, parsed = VObj o ->
                (forall l, o !! js "listings" <> Some (VArr l)) ->
                exists l, parseAIResponse E text = Ok l
                          /\ l = [VObj o] /\ length l = 1%nat).
Proof.
  intros Hparse. rewrite (parseAIResponse_parsed _ _ Hparse).
  split; [| split].
  - intros o l -> Hl.
    rewrite js_get_own by reflexivity. unfold field. rewrite Hl. reflexivity.
  - intros l ->.
    rewrite js_get_array_name by (reflexivity || discriminate). reflexivity.
  - intros o -> Hno. exists [VObj o]. split; [| split; reflexivity].
    rewrite js_get_own by reflexivity. unfold field.
    destruct (o !! js "listings") as [x|] eqn:Hx; simpl; [| reflexivity].
    destruct (Array_isArray x) eqn:Harr.
    + destruct x; try discriminate. exfalso. eapply Hno. reflexivity.
    + rewrite andb_false_r. reflexivity.
Qed.

(** C2. What the code does on a text whose parse is a scalar or [null]:
    it returns no list and fails with an error that carries the prefix of
    the normalizer.  On a number, a string or a boolean that error is the
    invalid-response-format one.  On [null] it is not: the read of
    [parsed.listings] raises before any shape is tested, and the error wraps
    the message of the engine's TypeError for that read. *)
Theorem parseAIResponse_scalar_or_null (text : list N) (parsed : value) :
  JSON_parse E text = inr parsed ->
  scalar_or_null parsed ->
  (exists m, parseAIResponse E text
             = Throw (Error (js "Failed to parse AI response: " ++ m)))
  /\ (parsed <> VNull ->
      parseAIResponse E text = Throw invalid_response_format)
  /\ (parsed = VNull ->
      parseAIResponse E text
      = Throw (Error (js "Failed to parse AI response: "
                        ++ msg_cannot_read E VNull (js "listings")))).
Proof.
  intros Hparse Hscalar. rewrite (parseAIResponse_parsed _ _ Hparse).
  destruct parsed; simpl in Hscalar; try contradiction; simpl.
  - split; [eexists; reflexivity | split; [congruence | reflexivity]].
  - split; [eexists; reflexivity | split; [reflexivity | discriminate]].
  - split; [eexists; reflexivity | split; [reflexivity | discriminate]].
  - destruct (decide (s = js "length")) as [->|Hs].
    + split; [eexists; reflexivity | split; [reflexivity | discriminate]].
    + split; [eexists; reflexivity | split; [reflexivity | discriminate]].
Qed.

(** C10. For every text that parses to an object whose field [listings] is
    present and is not a list, the normalizer does not fail and does not
    return that field: it returns the one-element list holding the whole
    object. *)
Theorem parseAIResponse_listings_not_a_list
    (text : list N) (o : gmap (list N) value) (x : value) :
  JSON_parse E text = inr (VObj o) ->
  o !! js "listings" = Some x ->
  Array_isArray x = false ->
  parseAIResponse E text = Ok [VObj o].
Proof.
  intros Hparse Hx Hnot. rewrite (parseAIResponse_parsed _ _ Hparse).
  rewrite js_get_own by reflexivity. unfold field. rewrite Hx. simpl.
  rewrite Hnot, andb_false_r. reflexivity.
Qed.

End NormalizerFacts.

(** ** Listing validator *)

Lemma not_filled_string_false (v : value) :
  not_filled_string v = false <-> filled_text v.
Proof.
  unfold filled_text. split.
  - destruct v; simpl; try discriminate.
    intros H. exists s. split; [reflexivity |].
    intros Hs. rewrite Hs in H. discriminate.
  - intros (s & -> & Hs). simpl. destruct (trim s); [contradiction | reflexivity].
Qed.

Lemma not_nonneg_number_false (v : value) :
  not_nonneg_number v = false <-> nonneg_number v.
Proof.
  unfold nonneg_number. split.
  - destruct v; try (simpl; discriminate). cbn [not_nonneg_number].
    intros H. exists n. split; [reflexivity |]. apply num_ltb_false. exact H.
  - intros (n & -> & Hn). cbn [not_nonneg_number]. apply num_ltb_false. exact Hn.
Qed.

Lemma not_year_false (currentYear : Z) (v : value) :
  not_year currentYear v = false <-> number_within 1900 (currentYear + 1) v.
Proof.
  unfold number_within. split.
  - destruct v; try (simpl; discriminate). cbn [not_year].
    intros H. apply orb_false_iff in H as [H1 H2].
    exists n. rewrite <- !num_ltb_false. auto.
  - intros (n & -> & H1 & H2). cbn [not_year].
    apply orb_false_iff. rewrite !num_ltb_false. auto.
Qed.

Lemma bad_optional_false (v : value) :
  bad_optional v = false <-> v = VUndefined \/ nonneg_number v.
Proof.
  unfold bad_optional. rewrite andb_false_iff, not_nonneg_number_false.
  split; (intros [H|H]; [left | right; exact H]).
  - destruct v; try discriminate. reflexivity.
  - rewrite H. reflexivity.
Qed.

Lemma filled_text_dec (v : value) : filled_text v \/ ~ filled_text v.
Proof.
  rewrite <- not_filled_string_false.
  destruct (not_filled_string v); [right | left]; congruence.
Qed.

Lemma nonneg_number_dec (v : value) : nonneg_number v \/ ~ nonneg_number v.
Proof.
  rewrite <- not_nonneg_number_false.
  destruct (not_nonneg_number v); [right | left]; congruence.
Qed.

Lemma required_ok_true (currentYear : Z) (c : value) :
  required_ok currentYear c = true <->
  filled_text (field c (js "make"))
  /\ filled_text (field c (js "model"))
  /\ number_within 1900 (currentYear + 1) (field c (js "year"))
  /\ nonneg_number (field c (js "mileage"))
  /\ nonneg_number (field c (js "price")).
Proof.
  unfold required_ok.
  rewrite negb_true_iff, !orb_false_iff,
    !not_filled_string_false, !not_nonneg_number_false, not_year_false.
  tauto.
Qed.

Lemma optionals_ok_true (c : value) :
  optionals_ok c = true <->
  forall k, k ∈ optional_fields ->
            field c k = VUndefined \/ nonneg_number (field c k).
Proof.
  unfold optionals_ok. rewrite forallb_forall. split.
  - intros H k Hk. apply bad_optional_false, negb_true_iff, H.
    apply list_elem_of_In. exact Hk.
  - intros H k Hk. apply negb_true_iff, bad_optional_false, H.
    apply list_elem_of_In. exact Hk.
Qed.

Lemma optionals_ok_false (c : value) :
  optionals_ok c = false <->
  exists k, k ∈ optional_fields
            /\ field c k <> VUndefined /\ ~ nonneg_number (field c k).
Proof.
  split.
  - unfold optionals_ok. intros H.
    assert (Hex : existsb (fun k => bad_optional (field c k)) optional_fields = true).
    { revert H. generalize optional_fields. intros l.
      induction l as [|k l IH]; simpl; [discriminate |].
      destruct (bad_optional (field c k)); simpl; auto. }
    apply existsb_exists in Hex as (k & Hin & Hk).
    exists k. split; [apply list_elem_of_In; exact Hin |].
    assert (Hn : ~ (field c k = VUndefined \/ nonneg_number (field c k))).
    { rewrite <- bad_optional_false. congruence. }
    tauto.
  - intros (k & Hin & Hdef & Hneg).
    destruct (optionals_ok c) eqn:Hok; [| reflexivity].
    rewrite optionals_ok_true in Hok. destruct (Hok k Hin); contradiction.
Qed.

(** On an object, or an array, the checks fail exactly on the listed
    conditions. *)
Lemma checks_listed (currentYear : Z) (c : value) :
  is_object c ->
  required_ok currentYear c && optionals_ok c = false <-> listed_rejection currentYear c.
Proof.
  intros Hobj. unfold listed_rejection.
  rewrite andb_false_iff, <- optionals_ok_false.
  rewrite <- (not_true_iff_false (required_ok _ _)), required_ok_true.
  pose proof (filled_text_dec (field c (js "make"))).
  pose proof (filled_text_dec (field c (js "model"))).
  pose proof (nonneg_number_dec (field c (js "mileage"))).
  pose proof (nonneg_number_dec (field c (js "price"))).
  assert (number_within 1900 (currentYear + 1) (field c (js "year"))
          \/ ~ number_within 1900 (currentYear + 1) (field c (js "year"))).
  { rewrite <- not_year_false. destruct (not_year _ _); [right | left]; congruence. }
  tauto.
Qed.

Lemma fuelTypeEntries_NoDup : NoDup (fuelTypeEntries.*1).
Proof. apply (bool_decide_unpack _). vm_compute. reflexivity. Qed.

Lemma fuelTypeMap_lookup (k : list N) (v : value) :
  fuelTypeMap !! k = Some v <-> exists c, v = VStr c /\ synonym k c.
Proof.
  unfold fuelTypeMap.
  rewrite <- (elem_of_list_to_map _ _ _ fuelTypeEntries_NoDup).
  unfold fuelTypeEntries.
  rewrite !elem_of_cons, elem_of_nil. unfold synonym.
  split.
  - intros H. repeat (destruct H as [H|H]); try contradiction;
      injection H as -> ->; eexists; (split; [reflexivity |]); tauto.
  - intros (c & -> & H).
    repeat (destruct H as [H|H]);
      try (destruct H as [H ->]); repeat (destruct H as [H|H]); subst k; tauto.
Qed.

Lemma fuelTypeMap_miss (k : list N) :
  fuelTypeMap !! k = None <-> forall c, ~ synonym k c.
Proof.
  split.
  - intros H c Hc.
    assert (Hs : fuelTypeMap !! k = Some (VStr c)).
    { apply fuelTypeMap_lookup. exists c. auto. }
    congruence.
  - intros H. destruct (fuelTypeMap !! k) as [v|] eqn:Hv; [| reflexivity].
    apply fuelTypeMap_lookup in Hv as (c & _ & Hc). destruct (H c Hc).
Qed.

Lemma synonym_nonempty (k c : list N) : synonym k c -> c <> [].
Proof.
  unfold synonym. intros H.
  repeat (destruct H as [H|H]); destruct H as [_ ->]; discriminate.
Qed.

Lemma toLowerCase_no_upper (s : list N) :
  existsb is_upper (toLowerCase s) = false.
Proof.
  induction s as [|c s IH]; simpl; [reflexivity |].
  rewrite IH, orb_false_r. unfold lowerUnit, is_upper.
  destruct ((65 <=? c) && (c <=? 90))%N eqn:Hc; [| exact Hc].
  apply andb_true_iff in Hc as [H1 H2].
  apply N.leb_le in H1, H2.
  apply andb_false_iff. right. apply N.leb_gt. lia.
Qed.

(** A lower-cased name reaches [Object.prototype] only as [constructor] or
    [__proto__]: every other name defined there has a capital letter. *)
Lemma objectPrototype_lower (s : list N) :
  toLowerCase s <> js "constructor" ->
  toLowerCase s <> js "__proto__" ->
  objectPrototype (toLowerCase s) = None.
Proof.
  intros H1 H2. unfold objectPrototype.
  destruct (decide (toLowerCase s = js "constructor")); [contradiction |].
  destruct (decide (toLowerCase s = js "__proto__")); [contradiction |].
  destruct (decide (toLowerCase s ∈ objectPrototypeMethods)) as [Hin|]; [| reflexivity].
  exfalso.
  assert (Hup : forallb (existsb is_upper) objectPrototypeMethods = true)
    by (vm_compute; reflexivity).
  rewrite forallb_forall in Hup.
  apply list_elem_of_In, Hup in Hin.
  rewrite toLowerCase_no_upper in Hin. discriminate.
Qed.

Section ValidatorFacts.

Variable E : Engine.
Variable currentYear : Z.

Lemma validateListing_try_obj (o : gmap (list N) value) :
  validateListing_try E currentYear (VObj o) =
    if required_ok currentYear (VObj o) && optionals_ok (VObj o)
    then fuel_step E (VObj o)
    else Ok (false, VObj o).
Proof.
  unfold validateListing_try. cbn [truthy typeof jstype_eqb negb orb].
  rewrite !js_get_own by reflexivity. cbn [rbind].
  unfold required_ok, optionals_ok, optional_fields. cbn [forallb].
  destruct (not_filled_string _ || _ || _ || _ || _); [reflexivity |].
  cbn [negb andb].
  repeat match goal with
         | |- context [bad_optional ?x] => destruct (bad_optional x); [reflexivity |]
         end.
  reflexivity.
Qed.

Lemma validateListing_obj (o : gmap (list N) value) :
  validateListing E currentYear (VObj o) =
    if required_ok currentYear (VObj o) && optionals_ok (VObj o)
    then match fuel_step E (VObj o) with
         | Ok r => r
         | Throw _ => (false, VObj o)
         end
    else (false, VObj o).
Proof.
  unfold validateListing. rewrite validateListing_try_obj.
  destruct (required_ok _ _ && optionals_ok _); reflexivity.
Qed.

(** What is not an object is rejected without an exception. *)
Lemma validateListing_try_other (c : value) :
  (forall o, c <> VObj o) ->
  validateListing_try E currentYear c = Ok (false, c).
Proof.
  intros Hc. destruct c as [| |b|n|s|l|o|b]; try reflexivity.
  - unfold validateListing_try. cbn [typeof jstype_eqb negb].
    rewrite orb_true_r. reflexivity.
  - unfold validateListing_try. cbn [typeof jstype_eqb negb].
    rewrite orb_true_r. reflexivity.
  - unfold validateListing_try. cbn [typeof jstype_eqb negb].
    rewrite orb_true_r. reflexivity.
  - destruct (Hc o). reflexivity.
  - destruct b; reflexivity.
Qed.

(** The last step on a string: the table decides. *)
Lemma fuel_step_text (o : gmap (list N) value) (s : list N) :
  o !! js "fuel_type" = Some (VStr s) -> s <> [] ->
  fuel_step E (VObj o) =
    match fuelTypeMap !! toLowerCase s with
    | Some v => Ok (true, VObj (<[js "fuel_type" := v]> o))
    | None =>
        match objectPrototype (toLowerCase s) with
        | Some b => Ok (true, VObj (<[js "fuel_type" := VBuiltin b]> o))
        | None => Ok (true, VObj (delete (js "fuel_type") o))
        end
    end.
Proof.
  intros Hf Hs. unfold fuel_step, field. rewrite Hf. cbn [default from_option id].
  destruct s as [|c s]; [contradiction |].
  cbn [truthy isEmpty negb call_toLowerCase rbind ToString js_get].
  destruct (fuelTypeMap !! toLowerCase (c :: s)) as [v|] eqn:Hv.
  - apply fuelTypeMap_lookup in Hv as (k & -> & Hk).
    apply synonym_nonempty in Hk. destruct k; [contradiction | reflexivity].
  - destruct (objectPrototype (toLowerCase (c :: s))); reflexivity.
Qed.

(** The last step on a truthy value that is not a string: a TypeError. *)
Lemma fuel_step_not_text (c : value) :
  fuel_type_not_text c ->
  fuel_step E c =
    Throw (TypeError (msg_not_a_function E (js "listing.fuel_type.toLowerCase"))).
Proof.
  intros [Ht Hn]. unfold fuel_step. rewrite Ht.
  destruct (field c (js "fuel_type")); try discriminate; try reflexivity.
  destruct Hn. reflexivity.
Qed.

(** The last step raises on nothing else. *)
Lemma fuel_step_throws (c : value) (e : jserror) :
  fuel_step E c = Throw e -> fuel_type_not_text c.
Proof.
  unfold fuel_step, fuel_type_not_text.
  destruct (truthy (field c (js "fuel_type"))) eqn:Ht; [| discriminate].
  destruct (field c (js "fuel_type")) as [| |b|n|s|l|o|b] eqn:Hf; intros H;
    try (split; [reflexivity | discriminate]).
  - exfalso. revert H. cbn [call_toLowerCase rbind ToString js_get].
    destruct (fuelTypeMap !! toLowerCase s) as [v|].
    + cbn [rbind]. destruct (truthy v); discriminate.
    + destruct (objectPrototype (toLowerCase s)) as [b|]; cbn [rbind truthy]; discriminate.
  - split; [reflexivity |]. destruct b; discriminate.
Qed.

End ValidatorFacts.

Lemma num_ltb_of_Z (a b : Z) : num_ltb (num_of_Z a) (num_of_Z b) = (a <? b)%Z.
Proof.
  unfold num_ltb, num_of_Z, Qcompare, inject_Z, Z.ltb. simpl.
  rewrite !Z.mul_1_r. reflexivity.
Qed.

Lemma car_fields (y : number) :
  field (VObj (car y)) (js "make") = VStr (js "Toyota")
  /\ field (VObj (car y)) (js "model") = VStr (js "Corolla")
  /\ field (VObj (car y)) (js "year") = VNum y
  /\ field (VObj (car y)) (js "mileage") = VNum (num_of_Z 40000)
  /\ field (VObj (car y)) (js "price") = VNum (num_of_Z 12000)
  /\ (forall k, k ∈ optional_fields -> field (VObj (car y)) k = VUndefined)
  /\ field (VObj (car y)) (js "fuel_type") = VUndefined.
Proof.
  repeat split; try (vm_compute; reflexivity).
  intros k Hk. unfold optional_fields in Hk.
  rewrite !elem_of_cons, elem_of_nil in Hk.
  repeat (destruct Hk as [->|Hk]); try contradiction; vm_compute; reflexivity.
Qed.

Section ValidatorClaims.

Variable E : Engine.
Variable currentYear : Z.

Lemma fuel_step_ok (c : value) (r : bool * value) :
  fuel_step E c = Ok r -> fst r = true.
Proof.
  unfold fuel_step.
  destruct (truthy (field c (js "fuel_type"))); [| intros [= <-]; reflexivity].
  destruct (call_toLowerCase E _ _) as [key|]; cbn [rbind]; [| discriminate].
  destruct (js_get E _ _) as [x|]; cbn [rbind]; [| discriminate].
  destruct (truthy x); intros [= <-]; reflexivity.
Qed.

Lemma field_not_object (c : value) (k : list N) :
  (forall o, c <> VObj o) -> field c k = VUndefined.
Proof. intros Hc. destruct c; try reflexivity. destruct (Hc props). reflexivity. Qed.

Lemma validateListing_false (c : value) :
  fst (validateListing E currentYear c) = false <->
  listed_rejection currentYear c \/ fuel_type_not_text c.
Proof.
  destruct c as [| |b|n|s|l|o|b];
    try (unfold validateListing;
         rewrite validateListing_try_other by discriminate;
         split; [intros _ | reflexivity];
         left; right; left; intros (s' & Hs' & _); discriminate).
  rewrite validateListing_obj.
  destruct (required_ok currentYear (VObj o) && optionals_ok (VObj o)) eqn:Hchk.
  - assert (Hnot : ~ listed_rejection currentYear (VObj o)).
    { rewrite <- checks_listed by exact I. congruence. }
    destruct (fuel_step E (VObj o)) as [r|e] eqn:Hstep.
    + rewrite (fuel_step_ok _ _ Hstep). split; [discriminate |].
      intros [H|H]; [contradiction |].
      rewrite (fuel_step_not_text E _ H) in Hstep. discriminate.
    + split; [| reflexivity]. intros _. right. eapply fuel_step_throws. exact Hstep.
  - split; [| reflexivity]. intros _. left. apply checks_listed; [exact I | exact Hchk].
Qed.

Lemma validateListing_car (y : Z) :
  1900 <= y <= currentYear + 1 ->
  validateListing E currentYear (VObj (car (num_of_Z y))) = (true, VObj (car (num_of_Z y))).
Proof.
  intros Hy. rewrite validateListing_obj.
  destruct (car_fields (num_of_Z y)) as (Hmake & Hmodel & Hyear & Hmil & Hprice & Hopt & Hfuel).
  assert (Hreq : required_ok currentYear (VObj (car (num_of_Z y))) = true).
  { unfold required_ok. rewrite Hmake, Hmodel, Hyear, Hmil, Hprice.
    cbn [not_year]. rewrite !num_ltb_of_Z.
    replace (y <? 1900) with false by (symmetry; apply Z.ltb_ge; lia).
    replace (currentYear + 1 <? y) with false by (symmetry; apply Z.ltb_ge; lia).
    vm_compute. reflexivity. }
  assert (Hopts : optionals_ok (VObj (car (num_of_Z y))) = true).
  { apply optionals_ok_true. intros k Hk. left. apply Hopt. exact Hk. }
  rewrite Hreq, Hopts. unfold fuel_step. rewrite Hfuel. reflexivity.
Qed.

Lemma validateListing_year_out (o : gmap (list N) value) (y : Z) :
  o !! js "year" = Some (VNum (num_of_Z y)) ->
  y < 1900 \/ currentYear + 1 < y ->
  validateListing E currentYear (VObj o) = (false, VObj o).
Proof.
  intros Hyear Hy. rewrite validateListing_obj.
  assert (Hreq : required_ok currentYear (VObj o) = false).
  { apply not_true_iff_false. rewrite required_ok_true.
    intros (_ & _ & Hin & _). apply not_year_false in Hin.
    unfold field in Hin. rewrite Hyear in Hin.
    cbn [default from_option id not_year] in Hin. rewrite !num_ltb_of_Z in Hin.
    apply orb_false_iff in Hin as [H1 H2].
    apply Z.ltb_ge in H1, H2. lia. }
  rewrite Hreq. reflexivity.
Qed.

(** C3, as amended. The validator returns [false] exactly when one of the
    listed conditions holds (the candidate is not an object; [make] or
    [model] is not a string that is non-empty after trimming; [year] is not
    a number in [[1900, current year + 1]]; [mileage] or [price] is not a
    number [>= 0]; a present optional field is not a number [>= 0]) or
    [fuel_type] is a truthy value that is not a string.  So the years 1899
    and current year + 2 are rejected, 1900 and current year + 1
    accepted. *)
Theorem validateListing_rejects_exactly :
  (forall c, fst (validateListing E currentYear c) = false <->
             listed_rejection currentYear c \/ fuel_type_not_text c)
  /\ (forall o, o !! js "year" = Some (VNum (num_of_Z 1899)) ->
                fst (validateListing E currentYear (VObj o)) = false)
  /\ (forall o, o !! js "year" = Some (VNum (num_of_Z (currentYear + 2))) ->
                fst (validateListing E currentYear (VObj o)) = false)
  /\ (1899 <= currentYear ->
      fst (validateListing E currentYear (VObj (car (num_of_Z 1900)))) = true
      /\ fst (validateListing E currentYear
                (VObj (car (num_of_Z (currentYear + 1))))) = true).
Proof.
  split; [exact validateListing_false |].
  split; [| split].
  - intros o Ho. rewrite (validateListing_year_out o 1899) by (assumption || lia).
    reflexivity.
  - intros o Ho.
    rewrite (validateListing_year_out o (currentYear + 2)) by (assumption || lia).
    reflexivity.
  - intros Hcy. rewrite !validateListing_car by lia. split; reflexivity.
Qed.

Lemma synonym_key_nonempty (k c : list N) : synonym k c -> k <> [].
Proof.
  unfold synonym. intros H.
  repeat (destruct H as [H|H]); destruct H as [H _];
    repeat (destruct H as [H|H]); subst k; discriminate.
Qed.

Lemma checks_pass (o : gmap (list N) value) :
  ~ listed_rejection currentYear (VObj o) ->
  required_ok currentYear (VObj o) && optionals_ok (VObj o) = true.
Proof.
  intros H. apply not_false_iff_true. rewrite checks_listed by exact I. exact H.
Qed.

(** C4, as amended. For every candidate that passes the checks of the
    required and of the optional fields: a [fuel_type] that is a string
    whose lower-cased form is in the synonym table is overwritten with the
    canonical value; a non-empty string whose lower-cased form is not in the
    table (and is not [constructor] or [__proto__]) is removed; a falsy
    [fuel_type] is left as it is; in these cases the validator returns
    [true].  A truthy [fuel_type] that is not a string makes it return
    [false]. *)
Theorem validateListing_fuel_type (o : gmap (list N) value) :
  ~ listed_rejection currentYear (VObj o) ->
  (forall s canonical,
      o !! js "fuel_type" = Some (VStr s) ->
      synonym (toLowerCase s) canonical ->
      validateListing E currentYear (VObj o)
      = (true, VObj (<[js "fuel_type" := VStr canonical]> o)))
  /\ (forall s,
      o !! js "fuel_type" = Some (VStr s) -> s <> [] ->
      (forall canonical, ~ synonym (toLowerCase s) canonical) ->
      toLowerCase s <> js "constructor" -> toLowerCase s <> js "__proto__" ->
      validateListing E currentYear (VObj o)
      = (true, VObj (delete (js "fuel_type") o)))
  /\ (forall v,
      o !! js "fuel_type" = Some v -> truthy v = false ->
      validateListing E currentYear (VObj o) = (true, VObj o))
  /\ (forall v,
      o !! js "fuel_type" = Some v -> truthy v = true -> typeof v <> TString ->
      validateListing E currentYear (VObj o) = (false, VObj o)).
Proof.
  intros Hpass. apply checks_pass in Hpass.
  rewrite validateListing_obj, Hpass.
  split; [| split; [| split]].
  - intros s canonical Hf Hsyn.
    assert (Hs : s <> []).
    { intros ->. apply synonym_key_nonempty in Hsyn. apply Hsyn. reflexivity. }
    rewrite (fuel_step_text E o s Hf Hs).
    assert (Hl : fuelTypeMap !! toLowerCase s = Some (VStr canonical)).
    { apply fuelTypeMap_lookup. exists canonical. auto. }
    rewrite Hl. reflexivity.
  - intros s Hf Hs Hmiss H1 H2.
    rewrite (fuel_step_text E o s Hf Hs).
    apply fuelTypeMap_miss in Hmiss. rewrite Hmiss.
    rewrite (objectPrototype_lower s H1 H2). reflexivity.
  - intros v Hf Hv. unfold fuel_step, field. rewrite Hf.
    cbn [default from_option id]. rewrite Hv. reflexivity.
  - intros v Hf Hv Hn.
    rewrite (fuel_step_not_text E (VObj o)); [reflexivity |].
    unfold fuel_type_not_text, field. rewrite Hf. cbn [default from_option id].
    auto.
Qed.

(** C9. The validator is total: on every candidate it returns a boolean.
    An exception of its body arises only from a truthy [fuel_type] that is
    not a string; it is caught, and the validator returns [false], the
    candidate unchanged. *)
Theorem validateListing_catches (c : value) :
  (exists b c', validateListing E currentYear c = (b, c'))
  /\ (forall e, validateListing_try E currentYear c = Throw e ->
                fuel_type_not_text c
                /\ validateListing E currentYear c = (false, c))
  /\ (fuel_type_not_text c -> validateListing E currentYear c = (false, c)).
Proof.
  split; [| split].
  - destruct (validateListing E currentYear c) as [b c']. eauto.
  - intros e He. split.
    + destruct c as [| |b|n|s|l|o|b];
        try (rewrite validateListing_try_other in He by discriminate; discriminate).
      rewrite validateListing_try_obj in He.
      destruct (required_ok _ _ && optionals_ok _); [| discriminate].
      eapply fuel_step_throws. exact He.
    + unfold validateListing. rewrite He. reflexivity.
  - intros Hf.
    destruct c as [| |b|n|s|l|o|b];
      try (destruct Hf as [Hf _]; discriminate).
    rewrite validateListing_obj, (fuel_step_not_text E _ Hf).
    destruct (required_ok _ _ && optionals_ok _); reflexivity.
Qed.

End ValidatorClaims.

(** ** Settings accessor, adapters and orchestration *)

Lemma blank_key_true (apiKey : option (list N)) :
  blank_key apiKey = true <->
  apiKey = None \/ exists k, apiKey = Some k /\ Forall (fun c => isWhiteSpace c = true) k.
Proof.
  unfold blank_key. destruct apiKey as [k|].
  - rewrite isEmpty_true, trim_nil. split.
    + intros H. right. exists k. auto.
    + intros [H|(k' & [= <-] & H)]; [discriminate | exact H].
  - split; auto.
Qed.

Lemma or_default_blank (d : option (list N)) (x : list N) :
  d = None \/ d = Some [] -> or_default d x = x.
Proof. intros [->| ->]; reflexivity. Qed.

Lemma or_default_filled (s x : list N) : s <> [] -> or_default (Some s) x = s.
Proof. destruct s; [contradiction | reflexivity]. Qed.

Section PipelineClaims.

Variable E : Engine.
Variable W : World.
Variable currentYear : Z.

(** C5. For every input that is empty or consists of whitespace only,
    [parseCarListing] fails with the no-data error, and has issued no call:
    no setting is loaded and no provider is contacted. *)
Theorem parseCarListing_blank_input (rawData : list N) (t : list event) :
  Forall (fun c => isWhiteSpace c = true) rawData ->
  parseCarListing E W currentYear rawData t
  = (Throw (ThrownError (Error (js "No data provided"))), t).
Proof.
  intros H. apply trim_nil in H. unfold parseCarListing. rewrite H. reflexivity.
Qed.

(** C7. For each of the three adapters and every API key that is [null],
    [undefined] or empty after trimming, the adapter fails with the
    key-required error that names its provider, and has issued no call. *)
Theorem adapters_require_api_key
    (prompt rawData : list N) (apiKey : option (list N))
    (siteUrl siteName : list N) (t : list event) :
  apiKey = None \/ (exists k, apiKey = Some k /\ trim k = []) ->
  parseWithGemini E W prompt rawData apiKey t
  = (Throw (ThrownError (Error (js "Gemini API key is required"))), t)
  /\ parseWithDeepseek E W prompt rawData apiKey t
     = (Throw (ThrownError (Error (js "Deepseek API key is required"))), t)
  /\ parseWithOpenRouter E W prompt rawData apiKey siteUrl siteName t
     = (Throw (ThrownError (Error (js "OpenRouter API key is required"))), t).
Proof.
  intros H.
  assert (Hb : blank_key apiKey = true).
  { destruct H as [->|(k & -> & Hk)]; [reflexivity |].
    unfold blank_key. rewrite Hk. reflexivity. }
  unfold parseWithGemini, parseWithDeepseek, parseWithOpenRouter.
  rewrite Hb. repeat split.
Qed.

(** C8, as amended. For every non-empty provider tag read from the
    settings store that is not one of [gemini], [deepseek] and
    [openrouter], the accessor fails with the error that names the unknown
    provider, after the one call that read the tag, and returns no bundle.
    A missing or empty tag is read as [gemini]. *)
Theorem getSettings_unknown_provider (t : list event) :
  (forall tag,
      rpc W (js "get_ai_provider") = {| rpc_data := Some tag; rpc_error := None |} ->
      tag <> [] -> ~ recognized_provider tag ->
      getSettings W t
      = (Throw (ThrownError (Error (js "Unknown AI provider: " ++ tag))),
         t ++ [EvRpc (js "get_ai_provider")]))
  /\ (forall d a p,
      rpc W (js "get_ai_provider") = {| rpc_data := d; rpc_error := None |} ->
      d = None \/ d = Some [] ->
      rpc W (js "get_gemini_apikey") = {| rpc_data := a; rpc_error := None |} ->
      rpc W (js "get_gemini_prompt") = {| rpc_data := p; rpc_error := None |} ->
      getSettings W t
      = (Ok (GeminiSettings (or_default a []) (or_default p [])),
         ((t ++ [EvRpc (js "get_ai_provider")])
            ++ [EvRpc (js "get_gemini_apikey")])
            ++ [EvRpc (js "get_gemini_prompt")])).
Proof.
  split.
  - intros tag Hrpc Hne Hunknown.
    unfold getSettings, mcatch, mbind, supabase_rpc, call. rewrite Hrpc.
    cbn [rpc_error rpc_data throw_if mret]. rewrite (or_default_filled _ _ Hne).
    unfold recognized_provider in Hunknown.
    destruct (decide (tag = js "gemini")); [tauto |].
    destruct (decide (tag = js "deepseek")); [tauto |].
    destruct (decide (tag = js "openrouter")); [tauto |].
    reflexivity.
  - intros d a p Hrpc Hd Ha Hp.
    unfold getSettings, mcatch, mbind, supabase_rpc, call. rewrite Hrpc.
    cbn [rpc_error rpc_data throw_if mret]. rewrite (or_default_blank _ _ Hd).
    destruct (decide (js "gemini" = js "gemini")); [| contradiction].
    rewrite Ha, Hp. reflexivity.
Qed.

(** C6. [parseCarListing] never returns the empty list; when the settings
    load, the adapter of the active provider returns its listings and none
    of them passes the validator, it fails with the no-valid-listings
    error. *)
Theorem parseCarListing_no_valid_listings (rawData : list N) (t : list event) :
  (forall l t', parseCarListing E W currentYear rawData t = (Ok l, t') -> l <> [])
  /\ (forall s t1 parsedListings t2,
      trim rawData <> [] ->
      getSettings W t = (Ok s, t1) ->
      call_provider E W s rawData t1 = (Ok parsedListings, t2) ->
      filter_validateListing E currentYear parsedListings = [] ->
      parseCarListing E W currentYear rawData t
      = (Throw (ThrownError (Error (js "No valid listings found in the response"))),
         t2)).
Proof.
  split.
  - intros l t'. unfold parseCarListing.
    destruct (isEmpty (trim rawData)); [discriminate |].
    unfold mcatch, mbind.
    destruct (getSettings W t) as [[s|x] t1].
    + destruct (call_provider E W s rawData t1) as [[parsed|x] t2].
      * destruct (filter_validateListing E currentYear parsed) as [|v valid] eqn:Hv.
        -- discriminate.
        -- cbn [length Nat.eqb mret]. intros [= <- _]. discriminate.
      * destruct (instanceofError x); discriminate.
    + destruct (instanceofError x); discriminate.
  - intros s t1 parsed t2 Hraw Hget Hcall Hnone.
    unfold parseCarListing.
    destruct (isEmpty (trim rawData)) eqn:Hb; [apply isEmpty_true in Hb; contradiction |].
    unfold mcatch, mbind. rewrite Hget, Hcall, Hnone. reflexivity.
Qed.

End PipelineClaims.

(** * Concrete runs

    The theorems above at explicit inputs, on the sample engine, with
    2026 as the current year. *)

Ltac run := vm_compute; reflexivity.

(** The candidate of the goal passes the listed checks. *)
Ltac passes_checks := rewrite <- checks_listed by exact I; vm_compute; discriminate.

(** ** Response normalizer *)

(** C1 at a wrapped list, a bare list and a single object. *)
Lemma parseAIResponse_shape_dispatch_witness :
  parseAIResponse V8 (json_text "{'listings':[1,2]}")
  = Ok [VNum (num_of_Z 1); VNum (num_of_Z 2)]
  /\ parseAIResponse V8 (json_text "[true]") = Ok [VBool true]
  /\ exists l, parseAIResponse V8 (json_text "{'make':'Toyota'}") = Ok l
               /\ l = [VObj {[ js "make" := VStr (js "Toyota") ]}]
               /\ length l = 1%nat.
Proof.
  split; [| split].
  - refine (proj1 (parseAIResponse_shape_dispatch V8 _
              (VObj {[ js "listings" := VArr [VNum (num_of_Z 1); VNum (num_of_Z 2)] ]}) _)
              _ _ eq_refl _); vm_compute; reflexivity.
  - refine (proj1 (proj2 (parseAIResponse_shape_dispatch V8 _ (VArr [VBool true]) _))
              _ eq_refl); vm_compute; reflexivity.
  - refine (proj2 (proj2 (parseAIResponse_shape_dispatch V8 _
              (VObj {[ js "make" := VStr (js "Toyota") ]}) _)) _ eq_refl _).
    + vm_compute; reflexivity.
    + intros l H. vm_compute in H. discriminate.
Defined.

(** C2 fails on the code at [null]: the normalizer fails there with the
    message of the engine's TypeError, not with the invalid-response-format
    error that the scalars get. *)
Lemma parseAIResponse_null_counterexample :
  JSON_parse V8 (js "null") = inr VNull
  /\ scalar_or_null VNull
  /\ parseAIResponse V8 (js "null")
     = Throw (Error (js "Failed to parse AI response: "
                       ++ js "Cannot read properties of null (reading 'listings')"))
  /\ parseAIResponse V8 (js "null") <> Throw invalid_response_format.
Proof.
  split; [vm_compute; reflexivity |].
  split; [exact I |].
  split; [vm_compute; reflexivity |].
  intros H. vm_compute in H. discriminate.
Qed.

(** C2 at the number 5 and at [null]. *)
Lemma parseAIResponse_scalar_or_null_witness :
  parseAIResponse V8 (js "5") = Throw invalid_response_format
  /\ parseAIResponse V8 (js "null")
     = Throw (Error (js "Failed to parse AI response: "
                       ++ msg_cannot_read V8 VNull (js "listings"))).
Proof.
  split.
  - refine (proj1 (proj2 (parseAIResponse_scalar_or_null V8 (js "5")
                            (VNum (num_of_Z 5)) _ I)) _).
    + vm_compute; reflexivity.
    + discriminate.
  - refine (proj2 (proj2 (parseAIResponse_scalar_or_null V8 (js "null") VNull _ I))
              eq_refl).
    vm_compute; reflexivity.
Defined.

(** C10 at [{"listings": 5}]. *)
Lemma parseAIResponse_listings_not_a_list_witness :
  parseAIResponse V8 (json_text "{'listings': 5}")
  = Ok [VObj {[ js "listings" := VNum (num_of_Z 5) ]}].
Proof.
  refine (parseAIResponse_listings_not_a_list V8 _ _ (VNum (num_of_Z 5)) _ _ _);
    vm_compute; reflexivity.
Defined.

(** ** Listing validator *)

(** C3 as stated fails at a record with valid fields and the number 5 as
    [fuel_type]: none of the listed conditions holds, and the validator
    returns [false]. *)
Lemma validateListing_fuel_number_counterexample :
  ~ listed_rejection 2026 (VObj (car_with_fuel_type (VNum (num_of_Z 5))))
  /\ fst (validateListing V8 2026 (VObj (car_with_fuel_type (VNum (num_of_Z 5)))))
     = false.
Proof. split; [passes_checks | run]. Qed.

(** C3, as amended, at the years 1899, 1900, 2027 and 2028. *)
Lemma validateListing_rejects_exactly_witness :
  fst (validateListing V8 2026 (VObj (car (num_of_Z 1899)))) = false
  /\ fst (validateListing V8 2026 (VObj (car (num_of_Z 1900)))) = true
  /\ fst (validateListing V8 2026 (VObj (car (num_of_Z (2026 + 1))))) = true
  /\ fst (validateListing V8 2026 (VObj (car (num_of_Z (2026 + 2))))) = false.
Proof.
  destruct (validateListing_rejects_exactly V8 2026) as (_ & Hlow & Hhigh & Hin).
  split; [apply Hlow; vm_compute; reflexivity |].
  split; [apply Hin; lia |].
  split; [apply Hin; lia |].
  apply Hhigh. vm_compute. reflexivity.
Defined.

(** A candidate without [price] is rejected; an array is rejected. *)
Example validateListing_missing_price :
  validateListing V8 2026 (VObj (delete (js "price") (car (num_of_Z 2019))))
  = (false, VObj (delete (js "price") (car (num_of_Z 2019))))
  /\ validateListing V8 2026 (VArr [VObj (car (num_of_Z 2019))])
     = (false, VArr [VObj (car (num_of_Z 2019))]).
Proof. split; run. Qed.

(** C4 as stated fails at a record with valid fields and [true] as
    [fuel_type]: the field is present, and the validator returns [false]
    and leaves it. *)
Lemma validateListing_fuel_true_counterexample :
  ~ listed_rejection 2026 (VObj (car_with_fuel_type (VBool true)))
  /\ car_with_fuel_type (VBool true) !! js "fuel_type" = Some (VBool true)
  /\ validateListing V8 2026 (VObj (car_with_fuel_type (VBool true)))
     = (false, VObj (car_with_fuel_type (VBool true))).
Proof. split; [passes_checks | split; run]. Qed.

(** C4, as amended, at the fuel types [Gas] and [rocket]. *)
Lemma validateListing_fuel_type_witness :
  validateListing V8 2026 (VObj (car_with_fuel_type (VStr (js "Gas"))))
  = (true, VObj (<[ js "fuel_type" := VStr (js "Petrol") ]>
                   (car_with_fuel_type (VStr (js "Gas")))))
  /\ validateListing V8 2026 (VObj (car_with_fuel_type (VStr (js "rocket"))))
     = (true, VObj (delete (js "fuel_type") (car_with_fuel_type (VStr (js "rocket")))))
  /\ validateListing V8 2026 (VObj (car_with_fuel_type (VStr [])))
     = (true, VObj (car_with_fuel_type (VStr [])))
  /\ validateListing V8 2026 (VObj (car_with_fuel_type (VObj ∅)))
     = (false, VObj (car_with_fuel_type (VObj ∅))).
Proof.
  split; [| split; [| split]].
  - refine (proj1 (validateListing_fuel_type V8 2026 _ _) (js "Gas") _ _ _).
    + passes_checks.
    + run.
    + left. split; [right; left; run | reflexivity].
  - refine (proj1 (proj2 (validateListing_fuel_type V8 2026 _ _))
              (js "rocket") _ _ _ _ _).
    + passes_checks.
    + run.
    + discriminate.
    + apply fuelTypeMap_miss. run.
    + vm_compute. discriminate.
    + vm_compute. discriminate.
  - refine (proj1 (proj2 (proj2 (validateListing_fuel_type V8 2026 _ _)))
              (VStr []) _ _).
    + passes_checks.
    + run.
    + reflexivity.
  - refine (proj2 (proj2 (proj2 (validateListing_fuel_type V8 2026 _ _)))
              (VObj ∅) _ _ _).
    + passes_checks.
    + run.
    + reflexivity.
    + discriminate.
Defined.

(** The inherited name [constructor] is neither a synonym nor removed: the
    lookup in [fuelTypeMap] reaches [Object.prototype]. *)
Example validateListing_fuel_type_constructor :
  validateListing V8 2026 (VObj (car_with_fuel_type (VStr (js "Constructor"))))
  = (true, VObj (<[ js "fuel_type" := VBuiltin ObjectConstructor ]>
                   (car_with_fuel_type (VStr (js "Constructor"))))).
Proof. run. Qed.

(** C9 at a record whose [fuel_type] is a list: the body raises, the
    validator returns [false]. *)
Lemma validateListing_catches_witness :
  validateListing_try V8 2026 (VObj (car_with_fuel_type (VArr [])))
  = Throw (TypeError (js "listing.fuel_type.toLowerCase is not a function"))
  /\ fuel_type_not_text (VObj (car_with_fuel_type (VArr [])))
  /\ validateListing V8 2026 (VObj (car_with_fuel_type (VArr [])))
     = (false, VObj (car_with_fuel_type (VArr []))).
Proof.
  assert (H : validateListing_try V8 2026 (VObj (car_with_fuel_type (VArr [])))
              = Throw (TypeError (js "listing.fuel_type.toLowerCase is not a function")))
    by run.
  split; [exact H |].
  exact (proj1 (proj2 (validateListing_catches V8 2026 _)) _ H).
Defined.

(** ** Settings accessor, adapters and orchestration *)

(** C5 at the empty input and at a blank one. *)
Lemma parseCarListing_blank_input_witness :
  parseCarListing V8 (sample_world (Some (js "gemini")) []) 2026 [] []
  = (Throw (ThrownError (Error (js "No data provided"))), [])
  /\ parseCarListing V8 (sample_world (Some (js "gemini")) []) 2026 (js "   ") []
     = (Throw (ThrownError (Error (js "No data provided"))), []).
Proof.
  split.
  - apply parseCarListing_blank_input. constructor.
  - apply parseCarListing_blank_input.
    repeat (constructor; [vm_compute; reflexivity |]). constructor.
Defined.

(** C7 at a missing key and at a blank one. *)
Lemma adapters_require_api_key_witness :
  parseWithGemini V8 (sample_world None []) (js "prompt") (js "text") None []
  = (Throw (ThrownError (Error (js "Gemini API key is required"))), [])
  /\ parseWithDeepseek V8 (sample_world None []) (js "prompt") (js "text")
       (Some (js "  ")) []
     = (Throw (ThrownError (Error (js "Deepseek API key is required"))), [])
  /\ parseWithOpenRouter V8 (sample_world None []) (js "prompt") (js "text")
       (Some (js "  ")) (js "https://bananadb.example") (js "BananaDB") []
     = (Throw (ThrownError (Error (js "OpenRouter API key is required"))), []).
Proof.
  split; [| split].
  - refine (proj1 (adapters_require_api_key V8 _ _ _ None [] [] [] _)).
    left. reflexivity.
  - refine (proj1 (proj2 (adapters_require_api_key V8 _ _ _ (Some (js "  ")) [] [] [] _))).
    right. exists (js "  "). split; [reflexivity | vm_compute; reflexivity].
  - refine (proj2 (proj2 (adapters_require_api_key V8 _ _ _ (Some (js "  ")) _ _ [] _))).
    right. exists (js "  "). split; [reflexivity | vm_compute; reflexivity].
Defined.

(** C8 as stated fails at the empty tag: it is none of the three
    recognized values, and the accessor returns the Gemini bundle. *)
Lemma getSettings_empty_tag_counterexample :
  rpc (sample_world (Some []) []) (js "get_ai_provider")
  = {| rpc_data := Some []; rpc_error := None |}
  /\ ~ recognized_provider []
  /\ getSettings (sample_world (Some []) []) []
     = (Ok (GeminiSettings (js "configured") (js "configured")),
        [EvRpc (js "get_ai_provider"); EvRpc (js "get_gemini_apikey");
         EvRpc (js "get_gemini_prompt")]).
Proof.
  split; [vm_compute; reflexivity |].
  split; [| vm_compute; reflexivity].
  intros [H|[H|H]]; vm_compute in H; discriminate.
Qed.

(** C8, as amended, at the tag [mistral] and at a missing tag. *)
Lemma getSettings_unknown_provider_witness :
  getSettings (sample_world (Some (js "mistral")) []) []
  = (Throw (ThrownError (Error (js "Unknown AI provider: " ++ js "mistral"))),
     [EvRpc (js "get_ai_provider")])
  /\ getSettings (sample_world None []) []
     = (Ok (GeminiSettings (js "configured") (js "configured")),
        [EvRpc (js "get_ai_provider"); EvRpc (js "get_gemini_apikey");
         EvRpc (js "get_gemini_prompt")]).
Proof.
  split.
  - refine (proj1 (getSettings_unknown_provider
                     (sample_world (Some (js "mistral")) []) []) (js "mistral") _ _ _).
    + vm_compute; reflexivity.
    + discriminate.
    + intros [H|[H|H]]; vm_compute in H; discriminate.
  - refine (proj2 (getSettings_unknown_provider (sample_world None []) [])
              None (Some (js "configured")) (Some (js "configured")) _ _ _ _).
    + vm_compute; reflexivity.
    + left; reflexivity.
    + vm_compute; reflexivity.
    + vm_compute; reflexivity.
Defined.

(** C6 at that reply, with Gemini as the provider. *)
Lemma parseCarListing_no_valid_listings_witness :
  parseCarListing V8 (sample_world (Some (js "gemini")) blank_make_reply) 2026
    (js "2020 X") []
  = (Throw (ThrownError (Error (js "No valid listings found in the response"))),
     [EvRpc (js "get_ai_provider"); EvRpc (js "get_gemini_apikey");
      EvRpc (js "get_gemini_prompt");
      EvGenerateContent (js "configured") (js "gemini-pro") (js "configured")
        (js "2020 X")]).
Proof.
  eapply (proj2 (parseCarListing_no_valid_listings V8
                   (sample_world (Some (js "gemini")) blank_make_reply) 2026
                   (js "2020 X") [])).
  - vm_compute. discriminate.
  - vm_compute. reflexivity.
  - vm_compute. reflexivity.
  - vm_compute. reflexivity.
Defined.

(** The end-to-end example of the specification: one valid listing in, the
    same listing out. *)
Example parseCarListing_toyota :
  parseCarListing V8
    (sample_world (Some (js "gemini"))
       (json_text "{'listings':[{'make':'Toyota','model':'Corolla','year':2019,'mileage':40000,'price':12000}]}"))
    2026 (js "2019 Toyota Corolla, 40000 km, $12000") []
  = (Ok [VObj (car (num_of_Z 2019))],
     [EvRpc (js "get_ai_provider"); EvRpc (js "get_gemini_apikey");
      EvRpc (js "get_gemini_prompt");
      EvGenerateContent (js "configured") (js "gemini-pro") (js "configured")
        (js "2019 Toyota Corolla, 40000 km, $12000")]).
Proof. vm_compute. reflexivity. Qed.

(** The same through the OpenRouter adapter, with a fuel type to
    normalize. *)
Example parseCarListing_openrouter :
  fst (parseCarListing V8
         (sample_world (Some (js "openrouter"))
            (json_text "{'make':'Toyota','model':'Corolla','year':2019,'mileage':40000,'price':12000,'fuel_type':'PHEV'}"))
         2026 (js "2019 Toyota Corolla") [])
  = Ok [VObj (<[ js "fuel_type" := VStr (js "Plug-in Hybrid") ]> (car (num_of_Z 2019)))].
Proof. vm_compute. reflexivity. Qed.

(** * Further properties of the validator *)

Lemma synonym_canonical (k c : list N) : synonym k c -> c ∈ canonical_fuel_types.
Proof.
  unfold synonym, canonical_fuel_types. rewrite !elem_of_cons.
  intros H. repeat (destruct H as [H|H]); destruct H as [_ ->]; tauto.
Qed.

(** A canonical name is a synonym of itself once lower-cased. *)
Lemma synonym_again (k c : list N) : synonym k c -> synonym (toLowerCase c) c.
Proof.
  intros H. apply synonym_canonical in H. unfold canonical_fuel_types in H.
  rewrite !elem_of_cons, elem_of_nil in H. unfold synonym.
  repeat (destruct H as [->|H]); try contradiction.
  - left. split; [right; right; reflexivity | reflexivity].
  - right; left. split; reflexivity.
  - right; right; left. split; reflexivity.
  - right; right; right; left. split; reflexivity.
  - right; right; right; right. split; [left; reflexivity | reflexivity].
Qed.

Lemma objectPrototype_lower_some (s : list N) (b : builtin) :
  objectPrototype (toLowerCase s) = Some b ->
  b = ObjectConstructor \/ b = ObjectPrototype.
Proof.
  intros H.
  destruct (decide (toLowerCase s = js "constructor")) as [Hc|Hc].
  - unfold objectPrototype in H. rewrite decide_True in H by exact Hc.
    injection H as <-. auto.
  - destruct (decide (toLowerCase s = js "__proto__")) as [Hp|Hp].
    + unfold objectPrototype in H.
      rewrite decide_False, decide_True in H by assumption.
      injection H as <-. auto.
    + rewrite (objectPrototype_lower s Hc Hp) in H. discriminate.
Qed.

Lemma field_js_set_ne (c : value) (k k' : list N) (v : value) :
  k' <> k -> field (js_set c k v) k' = field c k'.
Proof.
  intros Hk. destruct c; try reflexivity. unfold js_set, field.
  rewrite lookup_insert_ne by congruence. reflexivity.
Qed.

Lemma field_js_delete_ne (c : value) (k k' : list N) :
  k' <> k -> field (js_delete c k) k' = field c k'.
Proof.
  intros Hk. destruct c; try reflexivity. unfold js_delete, field.
  rewrite lookup_delete_ne by congruence. reflexivity.
Qed.

Lemma field_text_object (c : value) (k s : list N) :
  field c k = VStr s -> exists o, c = VObj o.
Proof. destruct c; try discriminate. eauto. Qed.

(** The checks read no field but the ten they name. *)
Lemma checks_frame (currentYear : Z) (c c' : value) :
  (forall k, k <> js "fuel_type" -> field c' k = field c k) ->
  required_ok currentYear c' = required_ok currentYear c
  /\ optionals_ok c' = optionals_ok c.
Proof.
  intros H. unfold required_ok, optionals_ok, optional_fields. cbn [forallb].
  rewrite !H by discriminate. split; reflexivity.
Qed.

Section ValidatorMore.

Variable E : Engine.
Variable currentYear : Z.

(** The outcomes of the last step that return. *)
Lemma fuel_step_shape (c : value) (r : bool * value) :
  fuel_step E c = Ok r ->
  fst r = true
  /\ ((truthy (field c (js "fuel_type")) = false /\ snd r = c)
      \/ (exists s canonical,
             field c (js "fuel_type") = VStr s /\ s <> []
             /\ synonym (toLowerCase s) canonical
             /\ snd r = js_set c (js "fuel_type") (VStr canonical))
      \/ (exists s b,
             field c (js "fuel_type") = VStr s
             /\ objectPrototype (toLowerCase s) = Some b
             /\ snd r = js_set c (js "fuel_type") (VBuiltin b))
      \/ (exists s,
             field c (js "fuel_type") = VStr s
             /\ snd r = js_delete c (js "fuel_type"))).
Proof.
  intros H. split; [eapply fuel_step_ok; exact H |].
  revert H. unfold fuel_step.
  destruct (truthy (field c (js "fuel_type"))) eqn:Ht.
  - destruct (field c (js "fuel_type")) as [| |b|n|s|l|o|b] eqn:Hf;
      try discriminate; try (destruct b; discriminate).
    cbn [call_toLowerCase rbind ToString js_get].
    destruct (fuelTypeMap !! toLowerCase s) as [v|] eqn:Hv.
    + apply fuelTypeMap_lookup in Hv as (canonical & -> & Hsyn).
      pose proof (synonym_nonempty _ _ Hsyn) as Hne.
      destruct canonical as [|a canonical]; [contradiction |].
      cbn [rbind truthy isEmpty negb]. intros [= <-].
      right; left. exists s, (a :: canonical).
      repeat split; try assumption.
      intros ->. discriminate.
    + destruct (objectPrototype (toLowerCase s)) as [b|] eqn:Hb;
        cbn [rbind truthy]; intros [= <-].
      * right; right; left. exists s, b. auto.
      * right; right; right. exists s. auto.
  - intros [= <-]. left. auto.
Qed.

Lemma validateListing_frame (c : value) :
  (forall k, k <> js "fuel_type" ->
             field (snd (validateListing E currentYear c)) k = field c k)
  /\ (fst (validateListing E currentYear c) = false ->
      snd (validateListing E currentYear c) = c).
Proof.
  destruct c as [| |b|n|s|l|o|b];
    try (unfold validateListing;
         rewrite validateListing_try_other by discriminate; split; reflexivity).
  rewrite validateListing_obj.
  destruct (required_ok currentYear (VObj o) && optionals_ok (VObj o));
    [| split; reflexivity].
  destruct (fuel_step E (VObj o)) as [r|e] eqn:Hstep; [| split; reflexivity].
  destruct (fuel_step_shape _ _ Hstep) as [Hfst Hsnd]. split.
  - intros k Hk.
    destruct Hsnd as [[_ ->]|[(s & x & _ & _ & _ & ->)|[(s & x & _ & _ & ->)|(s & _ & ->)]]];
      [reflexivity | apply field_js_set_ne | apply field_js_set_ne
      | apply field_js_delete_ne]; exact Hk.
  - rewrite Hfst. discriminate.
Qed.

(** X1. The validator writes to no field but [fuel_type], and a candidate
    it rejects is left exactly as it was. *)
Theorem validateListing_touches_fuel_type_only (c : value) :
  (forall k, k <> js "fuel_type" ->
             field (snd (validateListing E currentYear c)) k = field c k)
  /\ (fst (validateListing E currentYear c) = false ->
      snd (validateListing E currentYear c) = c).
Proof. exact (validateListing_frame c). Qed.

Lemma validateListing_accepts (c c' : value) :
  validateListing E currentYear c = (true, c') ->
  exists o, c = VObj o
            /\ required_ok currentYear c && optionals_ok c = true
            /\ fuel_step E c = Ok (true, c').
Proof.
  intros H.
  destruct c as [| |b|n|s|l|o|b];
    try (unfold validateListing in H;
         rewrite validateListing_try_other in H by discriminate; discriminate).
  exists o. split; [reflexivity |].
  rewrite validateListing_obj in H.
  destruct (required_ok currentYear (VObj o) && optionals_ok (VObj o));
    [| discriminate].
  split; [reflexivity |].
  destruct (fuel_step E (VObj o)) as [r|e]; [| discriminate].
  rewrite H. reflexivity.
Qed.

Lemma accepted_fuel_type (c c' : value) (s : list N) :
  validateListing E currentYear c = (true, c') ->
  field c' (js "fuel_type") = VStr s ->
  s = [] \/ s ∈ canonical_fuel_types.
Proof.
  intros Hv Hs.
  destruct (validateListing_accepts _ _ Hv) as (o & -> & _ & Hstep).
  destruct (fuel_step_shape _ _ Hstep) as [_ Hsnd]. cbn [snd] in Hsnd.
  destruct Hsnd as [[Ht ->]|[(s0 & x & _ & _ & Hsyn & ->)|[(s0 & x & _ & _ & ->)|(s0 & _ & ->)]]].
  - rewrite Hs in Ht. destruct s; [auto | discriminate].
  - right. unfold js_set, field in Hs. rewrite lookup_insert_eq in Hs.
    injection Hs as <-. eapply synonym_canonical. exact Hsyn.
  - unfold js_set, field in Hs. rewrite lookup_insert_eq in Hs. discriminate.
  - unfold js_delete, field in Hs. rewrite lookup_delete_eq in Hs. discriminate.
Qed.

(** X2. In a candidate the validator has accepted, a [fuel_type] that is a
    string is empty or one of the five canonical names. *)
Theorem validateListing_fuel_type_canonical (c c' : value) (s : list N) :
  validateListing E currentYear c = (true, c') ->
  field c' (js "fuel_type") = VStr s ->
  s = [] \/ s ∈ canonical_fuel_types.
Proof. exact (accepted_fuel_type c c' s). Qed.

(** What the validator accepts still passes the listed checks. *)
Lemma accepted_passes (c c' : value) :
  validateListing E currentYear c = (true, c') ->
  ~ listed_rejection currentYear c'.
Proof.
  intros Hv.
  destruct (validateListing_accepts _ _ Hv) as (o & -> & Hchk & Hstep).
  assert (Hobj : is_object c').
  { destruct (fuel_step_shape _ _ Hstep) as [_ Hsnd]. cbn [snd] in Hsnd.
    destruct Hsnd as [[_ ->]|[(s0 & x & _ & _ & _ & ->)|[(s0 & x & _ & _ & ->)|(s0 & _ & ->)]]];
      exact I. }
  rewrite <- (checks_listed currentYear c' Hobj).
  destruct (checks_frame currentYear (VObj o) c') as [-> ->].
  { intros k Hk. pose proof (proj1 (validateListing_frame (VObj o)) k Hk) as Hf.
    rewrite Hv in Hf. exact Hf. }
  rewrite Hchk. discriminate.
Qed.

Lemma accepted_again (c c' : value) :
  validateListing E currentYear c = (true, c') ->
  (forall b, field c' (js "fuel_type") <> VBuiltin b) ->
  validateListing E currentYear c' = (true, c').
Proof.
  intros Hv Hnb.
  destruct (validateListing_accepts _ _ Hv) as (o & -> & Hchk & Hstep).
  destruct (fuel_step_shape _ _ Hstep) as [_ Hsnd]. cbn [snd] in Hsnd.
  destruct Hsnd as [[Ht ->]|[(s0 & x & _ & _ & Hsyn & ->)|[(s0 & x & _ & _ & ->)|(s0 & _ & ->)]]].
  - exact Hv.
  - cbn [js_set]. rewrite validateListing_obj.
    destruct (checks_frame currentYear (VObj o)
                (VObj (<[js "fuel_type" := VStr x]> o))) as [-> ->].
    { intros k Hk. apply (field_js_set_ne (VObj o)). exact Hk. }
    rewrite Hchk.
    rewrite (fuel_step_text E _ x) by
      (apply lookup_insert_eq || (eapply synonym_nonempty; exact Hsyn)).
    assert (Hl : fuelTypeMap !! toLowerCase x = Some (VStr x)).
    { apply fuelTypeMap_lookup. exists x. split; [reflexivity |].
      eapply synonym_again. exact Hsyn. }
    rewrite Hl, insert_insert_eq. reflexivity.
  - exfalso. apply (Hnb x). unfold js_set, field. rewrite lookup_insert_eq. reflexivity.
  - cbn [js_delete]. rewrite validateListing_obj.
    destruct (checks_frame currentYear (VObj o)
                (VObj (delete (js "fuel_type") o))) as [-> ->].
    { intros k Hk. apply (field_js_delete_ne (VObj o)). exact Hk. }
    rewrite Hchk. unfold fuel_step, field. rewrite lookup_delete_eq. reflexivity.
Qed.

(** X3. Validation is idempotent on what it accepts: unless it has put a
    built-in object into [fuel_type], the accepted candidate is accepted
    again and comes back unchanged. *)
Theorem validateListing_idempotent (c c' : value) :
  validateListing E currentYear c = (true, c') ->
  (forall b, field c' (js "fuel_type") <> VBuiltin b) ->
  validateListing E currentYear c' = (true, c').
Proof. exact (accepted_again c c'). Qed.

(** X4. The validator does not see the case of the ASCII letters of
    [fuel_type]: two spellings that become equal once their letters A to Z
    are lower-cased (code unit by code unit, all other code units equal)
    give the same verdict and, when accepted, the same record. *)
Theorem validateListing_case_insensitive
    (o : gmap (list N) value) (s s' : list N) :
  toLowerCase s = toLowerCase s' ->
  fst (validateListing E currentYear (VObj (<[js "fuel_type" := VStr s]> o)))
  = fst (validateListing E currentYear (VObj (<[js "fuel_type" := VStr s']> o)))
  /\ (fst (validateListing E currentYear (VObj (<[js "fuel_type" := VStr s]> o))) = true ->
      snd (validateListing E currentYear (VObj (<[js "fuel_type" := VStr s]> o)))
      = snd (validateListing E currentYear (VObj (<[js "fuel_type" := VStr s']> o)))).
Proof.
  intros Hlow.
  destruct s as [|a s].
  { destruct s' as [|a' s']; [| discriminate]. split; reflexivity. }
  destruct s' as [|a' s']; [discriminate |].
  rewrite !validateListing_obj.
  destruct (checks_frame currentYear (VObj (<[js "fuel_type" := VStr (a :: s)]> o))
              (VObj (<[js "fuel_type" := VStr (a' :: s')]> o))) as [-> ->].
  { intros k Hk. unfold field. rewrite !lookup_insert_ne by congruence. reflexivity. }
  destruct (required_ok _ _ && optionals_ok _); [| split; [reflexivity | discriminate]].
  rewrite (fuel_step_text E _ (a :: s)) by (apply lookup_insert_eq || discriminate).
  rewrite (fuel_step_text E _ (a' :: s')) by (apply lookup_insert_eq || discriminate).
  rewrite <- Hlow.
  destruct (fuelTypeMap !! toLowerCase (a :: s)) as [v|].
  - rewrite !insert_insert_eq. split; reflexivity.
  - destruct (objectPrototype (toLowerCase (a :: s))) as [b|].
    + rewrite !insert_insert_eq. split; reflexivity.
    + rewrite !delete_insert_eq. split; reflexivity.
Qed.

End ValidatorMore.

(** * Further properties of the pipeline *)

Section FilterMore.

Variable E : Engine.
Variable currentYear : Z.

Lemma filter_validateListing_cons (c : value) (l : list value) :
  filter_validateListing E currentYear (c :: l) =
    (if fst (validateListing E currentYear c)
     then [snd (validateListing E currentYear c)] else [])
      ++ filter_validateListing E currentYear l.
Proof. reflexivity. Qed.

Lemma filter_validateListing_each (l : list value) :
  Forall (fun c' => exists c, c ∈ l /\ validateListing E currentYear c = (true, c'))
         (filter_validateListing E currentYear l).
Proof.
  induction l as [|c l IH]; [constructor |].
  rewrite filter_validateListing_cons.
  apply Forall_app. split.
  - destruct (validateListing E currentYear c) as [b c'] eqn:Hv. cbn [fst snd].
    destruct b; constructor; [| constructor].
    exists c. split; [left | exact Hv].
  - eapply Forall_impl; [exact IH |].
    intros c' (c0 & Hin & Hv). exists c0. split; [right; exact Hin | exact Hv].
Qed.

Lemma filter_validateListing_passes (l : list value) :
  Forall (fun c' =>
            ~ listed_rejection currentYear c'
            /\ forall s, field c' (js "fuel_type") = VStr s ->
                         s = [] \/ s ∈ canonical_fuel_types)
         (filter_validateListing E currentYear l).
Proof.
  eapply Forall_impl; [apply filter_validateListing_each |].
  intros c' (c & _ & Hv). split.
  - eapply accepted_passes. exact Hv.
  - intros s. eapply accepted_fuel_type. exact Hv.
Qed.

(** The filter as a map after a filter. *)
Lemma filter_validateListing_result (l : list value) :
  filter_validateListing E currentYear l
  = List.map (fun c => snd (validateListing E currentYear c))
      (List.filter (fun c => fst (validateListing E currentYear c)) l)
  /\ (length (filter_validateListing E currentYear l) <= length l)%nat
  /\ (filter_validateListing E currentYear l = [] <->
      Forall (fun c => fst (validateListing E currentYear c) = false) l).
Proof.
  induction l as [|c l (IH1 & IH2 & IH3)].
  - repeat split; try constructor.
  - rewrite filter_validateListing_cons. cbn [List.filter].
    destruct (fst (validateListing E currentYear c)) eqn:Hc.
    + cbn [List.map app length]. rewrite IH1. split; [reflexivity |].
      rewrite <- IH1. split; [lia |].
      split; [discriminate |]. intros H. inversion H; congruence.
    + cbn [app length]. split; [exact IH1 |]. split; [lia |].
      rewrite IH3. split.
      * intros H. constructor; assumption.
      * intros H. inversion H; assumption.
Qed.

Lemma filter_validateListing_fixed (l : list value) :
  Forall (fun c => validateListing E currentYear c = (true, c)) l ->
  filter_validateListing E currentYear l = l.
Proof.
  induction 1 as [|c l Hc _ IH]; [reflexivity |].
  rewrite filter_validateListing_cons, Hc, IH. reflexivity.
Qed.

(** X5. Filtering is idempotent: the records that survive the validation
    filter all survive it again, unchanged and in the same order, unless the
    validator has put a built-in object into the [fuel_type] of one of
    them. *)
Theorem filter_validateListing_idempotent (l : list value) :
  Forall (fun c => forall b, field c (js "fuel_type") <> VBuiltin b)
         (filter_validateListing E currentYear l) ->
  filter_validateListing E currentYear (filter_validateListing E currentYear l)
  = filter_validateListing E currentYear l.
Proof.
  intros Hnb. apply filter_validateListing_fixed.
  pose proof (filter_validateListing_each l) as Heach.
  induction Heach as [|c' out (c & _ & Hv) _ IH]; [constructor |].
  inversion Hnb as [|? ? Hc' Hout]; subst.
  constructor; [| apply IH; exact Hout].
  eapply accepted_again; [exact Hv | exact Hc'].
Qed.

End FilterMore.

Lemma instanceofError_rethrown (x : thrown) (e : jserror) :
  instanceofError (if instanceofError x then x else ThrownError e) = true.
Proof. destruct x; reflexivity. Qed.

Lemma throw_if_cases (err : option thrown) (t : list event) :
  throw_if err t = (Ok tt, t)
  \/ exists x, err = Some x /\ truthy_thrown x = true /\ throw_if err t = (Throw x, t).
Proof.
  unfold throw_if. destruct err as [x|]; [| left; reflexivity].
  destruct (truthy_thrown x) eqn:Hx; [right; exists x; auto | left; reflexivity].
Qed.

Section PipelineMore.

Variable E : Engine.
Variable W : World.
Variable currentYear : Z.

(** X6. Every record [parseCarListing] returns passes the checks of the
    validator (an object with a filled [make] and [model], a [year] in
    range, [mileage] and [price] numbers [>= 0], valid optional numbers),
    and its [fuel_type], if a string, is empty or canonical. *)
Theorem parseCarListing_returns_valid
    (rawData : list N) (t t' : list event) (l : list value) :
  parseCarListing E W currentYear rawData t = (Ok l, t') ->
  Forall (fun c =>
            ~ listed_rejection currentYear c
            /\ forall s, field c (js "fuel_type") = VStr s ->
                         s = [] \/ s ∈ canonical_fuel_types) l.
Proof.
  unfold parseCarListing.
  destruct (isEmpty (trim rawData)); [discriminate |].
  unfold mcatch, mbind.
  destruct (getSettings W t) as [[s|x] t1].
  - destruct (call_provider E W s rawData t1) as [[parsed|x] t2].
    + destruct (length (filter_validateListing E currentYear parsed) =? 0)%nat.
      * discriminate.
      * intros [= <- _]. apply filter_validateListing_passes.
    + destruct (instanceofError x); discriminate.
  - destruct (instanceofError x); discriminate.
Qed.

(** X7. [parseCarListing] fails only with instances of [Error]: whatever
    a collaborator throws that is not one is replaced. *)
Theorem parseCarListing_throws_errors
    (rawData : list N) (t t' : list event) (x : thrown) :
  parseCarListing E W currentYear rawData t = (Throw x, t') ->
  instanceofError x = true.
Proof.
  unfold parseCarListing.
  destruct (isEmpty (trim rawData)); [intros [= <- _]; reflexivity |].
  unfold mcatch, mbind.
  destruct (getSettings W t) as [[s|y] t1].
  - destruct (call_provider E W s rawData t1) as [[parsed|y] t2].
    + destruct (length (filter_validateListing E currentYear parsed) =? 0)%nat.
      * intros [= <- _]. reflexivity.
      * discriminate.
    + intros [= <- _]. apply instanceofError_rethrown.
  - intros [= <- _]. apply instanceofError_rethrown.
Qed.

End PipelineMore.

(** * Further properties of the settings accessor *)

(** The read of the goal's first setting: its error, then whether the
    error is thrown. *)
Ltac read_setting W :=
  match goal with
  | |- context [rpc_error (rpc W ?fn)] =>
      let e := fresh "e" in
      let He := fresh "He" in
      let Ht := fresh "Ht" in
      destruct (rpc_error (rpc W fn)) as [e|] eqn:He;
      [destruct (truthy_thrown e) eqn:Ht |];
      lazy beta iota
  end.

Ltac open_getSettings :=
  unfold getSettings, mcatch, mbind, supabase_rpc, call, throw_if, throw, mret.

Section AccessorMore.

Variable W : World.

Lemma getSettings_reads (t t' : list event) (r : result thrown settings) :
  getSettings W t = (r, t') ->
  exists reads, t' = t ++ reads
                /\ forallb is_rpc reads = true
                /\ (1 <= length reads <= 5)%nat.
Proof.
  open_getSettings.
  read_setting W.
  1: { intros [= _ <-]. eexists. split; [reflexivity |]. split; [reflexivity | simpl; lia]. }
  all: destruct (decide (_ = js "gemini"));
    [| destruct (decide (_ = js "deepseek"));
       [| destruct (decide (_ = js "openrouter"))]];
    repeat read_setting W;
    intros [= _ <-]; rewrite <- ?app_assoc; cbn [app];
    eexists; (split; [reflexivity |]); (split; [reflexivity | simpl; lia]).
Qed.

Lemma getSettings_success (t t' : list event) (s : settings) :
  getSettings W t = (Ok s, t') ->
  ai_provider s = or_default (rpc_data (rpc W (js "get_ai_provider"))) (js "gemini")
  /\ t' = t ++ settings_reads s
  /\ Forall (read_clean W) (settings_reads s).
Proof.
  open_getSettings.
  read_setting W.
  1: { destruct (instanceofError e); discriminate. }
  all: destruct (decide (_ = js "gemini")) as [Hg|Hg];
    [| destruct (decide (_ = js "deepseek")) as [Hd|Hd];
       [| destruct (decide (_ = js "openrouter")) as [Ho|Ho]]];
    repeat read_setting W;
    try (intros H; exfalso; revert H;
         match goal with
         | |- context [instanceofError ?x] => destruct (instanceofError x)
         end; discriminate);
    intros [= <- <-]; rewrite <- ?app_assoc; cbn [app ai_provider settings_reads];
    (split; [congruence |]); (split; [reflexivity |]);
    repeat (constructor; [unfold read_clean;
                          repeat match goal with
                                 | H : rpc_error _ = _ |- _ => rewrite H
                                 end; auto |]);
    constructor.
Qed.

(** X8. When the accessor succeeds, the provider of the bundle is the tag of
    the store, or [gemini] when the tag is missing or empty; the accessor
    has read the tag and then the settings of that provider only (three
    reads, five for OpenRouter), and none of these reads came with an
    error. *)
Theorem getSettings_reads_active_provider (t t' : list event) (s : settings) :
  getSettings W t = (Ok s, t') ->
  ai_provider s = or_default (rpc_data (rpc W (js "get_ai_provider"))) (js "gemini")
  /\ t' = t ++ settings_reads s
  /\ Forall (read_clean W) (settings_reads s).
Proof. exact (getSettings_success t t' s). Qed.

(** X9. An error of the read of the provider tag ends the accessor after
    that one read: an instance of [Error] is thrown as it is, anything else
    is replaced by the settings-load error.  Whatever the accessor throws is
    an instance of [Error]. *)
Theorem getSettings_store_error (t : list event) :
  (forall x,
      rpc_error (rpc W (js "get_ai_provider")) = Some x ->
      truthy_thrown x = true ->
      getSettings W t
      = (Throw (if instanceofError x then x
                else ThrownError (Error (js "Failed to load AI settings"))),
         t ++ [EvRpc (js "get_ai_provider")]))
  /\ (forall x t', getSettings W t = (Throw x, t') -> instanceofError x = true).
Proof.
  split.
  - intros x Hx Ht. open_getSettings. rewrite Hx, Ht. reflexivity.
  - intros x t'. open_getSettings.
    read_setting W.
    1: { intros [= <- _]. apply instanceofError_rethrown. }
    all: destruct (decide (_ = js "gemini"));
      [| destruct (decide (_ = js "deepseek"));
         [| destruct (decide (_ = js "openrouter"))]];
      repeat read_setting W;
      try discriminate;
      intros [= <- _]; try reflexivity; apply instanceofError_rethrown.
Qed.

End AccessorMore.

(** * Further properties of the adapters *)

Section AdapterMore.

Variable E : Engine.
Variable W : World.

Lemma js_get_first (l : list value) :
  js_get E (VArr l) (js "0") = Ok (default VUndefined (l !! 0%nat)).
Proof. reflexivity. Qed.

(** Once the request is built, one call is made, whatever comes of it. *)
Lemma chat_completion_trace
    (req : request) (provider : list N) (t t' : list event)
    (r : result thrown (list value)) :
  chat_completion E W req provider t = (r, t') -> t' = t ++ [EvFetch req].
Proof.
  unfold chat_completion, mcatch, mbind, call, lift_result, lift_sync, throw.
  destruct (fetch W req) as [resp|x]; [| intros [= _ <-]; reflexivity].
  destruct (resp_ok resp); cbn [negb].
  - destruct (resp_json resp) as [data|x]; [| intros [= _ <-]; reflexivity].
    destruct (first_choice_content E data) as [content|e];
      [| intros [= _ <-]; reflexivity].
    destruct (truthy content); cbn [negb]; [| intros [= _ <-]; reflexivity].
    destruct (parseAIResponse E (ToString E content)); intros [= _ <-]; reflexivity.
  - destruct (resp_json resp) as [err|x]; [| intros [= _ <-]; reflexivity].
    destruct (error_message_or E err _); intros [= _ <-]; reflexivity.
Qed.

Lemma parseWithGemini_trace
    (prompt rawData k : list N) (t t' : list event) (r : result thrown (list value)) :
  parseWithGemini E W prompt rawData (Some k) t = (r, t') ->
  t' = t \/ t' = t ++ [EvGenerateContent (trim k) (js "gemini-pro") prompt rawData].
Proof.
  unfold parseWithGemini, mcatch, mbind, call, lift_sync, throw.
  destruct (blank_key (Some k)); [intros [= _ <-]; left; reflexivity |].
  cbn [default from_option id].
  destruct (generateContent W _ _ _ _) as [text|x];
    [| intros [= _ <-]; right; reflexivity].
  destruct (parseAIResponse E text); intros [= _ <-]; right; reflexivity.
Qed.

Lemma call_provider_trace
    (s : settings) (rawData : list N) (t t' : list event)
    (r : result thrown (list value)) :
  call_provider E W s rawData t = (r, t') ->
  t' = t \/ exists ev, t' = t ++ [ev] /\ provider_call s rawData ev.
Proof.
  destruct s as [k p|k p|k p u n]; unfold call_provider.
  - destruct (isEmpty k); [intros [= _ <-]; left; reflexivity |].
    destruct (isEmpty p); [intros [= _ <-]; left; reflexivity |].
    intros H. apply parseWithGemini_trace in H as [->| ->]; [left; reflexivity |].
    right. eexists. split; [reflexivity |]. repeat split.
  - destruct (isEmpty k); [intros [= _ <-]; left; reflexivity |].
    destruct (isEmpty p); [intros [= _ <-]; left; reflexivity |].
    unfold parseWithDeepseek.
    destruct (blank_key (Some k)); [intros [= _ <-]; left; reflexivity |].
    intros H. apply chat_completion_trace in H as ->.
    right. eexists. split; [reflexivity |]. repeat split.
  - destruct (isEmpty k); [intros [= _ <-]; left; reflexivity |].
    destruct (isEmpty p); [intros [= _ <-]; left; reflexivity |].
    unfold parseWithOpenRouter.
    destruct (blank_key (Some k)); [intros [= _ <-]; left; reflexivity |].
    intros H. apply chat_completion_trace in H as ->.
    right. eexists. split; [reflexivity |]. repeat split.
Qed.

(** X10. The provider switch contacts the active provider only, and at
    most once: Gemini through its SDK, the other two at their own endpoint,
    with the trimmed key of the bundle, its prompt and the raw text.  With a
    key that is not blank and a prompt that is not empty it makes exactly
    that one call, whatever the outcome: there is no retry. *)
Theorem call_provider_one_call
    (s : settings) (rawData : list N) (t t' : list event)
    (r : result thrown (list value)) :
  call_provider E W s rawData t = (r, t') ->
  (t' = t \/ exists ev, t' = t ++ [ev] /\ provider_call s rawData ev)
  /\ (trim (settings_api_key s) <> [] -> settings_prompt s <> [] ->
      exists ev, t' = t ++ [ev] /\ provider_call s rawData ev).
Proof.
  intros H. split; [eapply call_provider_trace; exact H |].
  intros Hk Hp.
  assert (Hkey : isEmpty (settings_api_key s) = false).
  { destruct (settings_api_key s) eqn:Hs; [| reflexivity].
    destruct Hk. reflexivity. }
  assert (Hblank : blank_key (Some (settings_api_key s)) = false).
  { unfold blank_key. destruct (trim (settings_api_key s)); [contradiction | reflexivity]. }
  assert (Hprompt : isEmpty (settings_prompt s) = false).
  { destruct (settings_prompt s); [contradiction | reflexivity]. }
  revert H. destruct s as [k p|k p|k p u n]; unfold call_provider;
    cbn [settings_api_key settings_prompt] in *; rewrite Hkey, Hprompt.
  - unfold parseWithGemini, mcatch, mbind, call, lift_sync, throw.
    rewrite Hblank. cbn [default from_option id].
    destruct (generateContent W _ _ _ _) as [text|x].
    + destruct (parseAIResponse E text); intros [= _ <-];
        (eexists; split; [reflexivity | repeat split]).
    + intros [= _ <-]. eexists; split; [reflexivity | repeat split].
  - unfold parseWithDeepseek. rewrite Hblank.
    intros H. apply chat_completion_trace in H as ->.
    eexists. split; [reflexivity | repeat split].
  - unfold parseWithOpenRouter. rewrite Hblank.
    intros H. apply chat_completion_trace in H as ->.
    eexists. split; [reflexivity | repeat split].
Qed.

(** X11. A bundle with an empty key, an empty prompt or a blank key
    reaches no provider: the switch fails with the error that names what is
    required (the empty key first, then the empty prompt, then the blank
    key, which the adapter refuses) and issues no call. *)
Theorem call_provider_requires_credentials
    (s : settings) (rawData : list N) (t : list event) :
  (settings_api_key s = [] ->
   call_provider E W s rawData t
   = (Throw (ThrownError (Error (provider_label s ++ js " API key is required"))), t))
  /\ (settings_api_key s <> [] -> settings_prompt s = [] ->
      call_provider E W s rawData t
      = (Throw (ThrownError (Error (provider_label s ++ js " prompt is required"))), t))
  /\ (settings_api_key s <> [] -> settings_prompt s <> [] ->
      trim (settings_api_key s) = [] ->
      call_provider E W s rawData t
      = (Throw (ThrownError (Error (provider_label s ++ js " API key is required"))), t)).
Proof.
  split; [| split].
  - intros Hk.
    destruct s as [k p|k p|k p u n]; unfold call_provider;
      cbn [settings_api_key] in Hk; subst k; reflexivity.
  - intros Hk Hp.
    destruct s as [k p|k p|k p u n]; unfold call_provider;
      cbn [settings_api_key settings_prompt] in *; subst p;
      (destruct k; [contradiction | reflexivity]).
  - intros Hk Hp Hb.
    assert (Hblank : blank_key (Some (settings_api_key s)) = true).
    { unfold blank_key. rewrite Hb. reflexivity. }
    destruct s as [k p|k p|k p u n]; unfold call_provider;
      cbn [settings_api_key settings_prompt] in *;
      (destruct k; [contradiction |]); (destruct p; [contradiction |]);
      cbn [isEmpty];
      unfold parseWithGemini, parseWithDeepseek, parseWithOpenRouter;
      rewrite Hblank; reflexivity.
Qed.

End AdapterMore.

Section ResponseMore.

Variable E : Engine.
Variable W : World.

(** X12. A response that is not a success is an error whose message is the
    provider's own, [error.message] of the body, when the body has one, and
    the failure message that names the provider when the body has no
    [error] or the error no [message]. *)
Theorem chat_completion_error_status
    (req : request) (provider : list N) (resp : response)
    (body : gmap (list N) value) (t : list event) :
  fetch W req = Ok resp -> resp_ok resp = false ->
  resp_json resp = Ok (VObj body) ->
  (forall inner m,
      body !! js "error" = Some (VObj inner) ->
      inner !! js "message" = Some (VStr m) -> m <> [] ->
      chat_completion E W req provider t
      = (Throw (ThrownError (Error m)), t ++ [EvFetch req]))
  /\ (body !! js "error" = None
      \/ (exists inner, body !! js "error" = Some (VObj inner)
                        /\ inner !! js "message" = None) ->
      chat_completion E W req provider t
      = (Throw (ThrownError (Error (js "Failed to get response from " ++ provider))),
         t ++ [EvFetch req])).
Proof.
  intros Hfetch Hok Hjson.
  unfold chat_completion, mcatch, mbind, call, lift_result, lift_sync, throw.
  rewrite Hfetch, Hok, Hjson. cbn [negb].
  unfold error_message_or. rewrite (js_get_own E body (js "error")) by reflexivity.
  unfold field. split.
  - intros inner m Hinner Hm Hne. rewrite Hinner.
    cbn [default from_option id rbind js_get_opt nullish].
    rewrite (js_get_own E inner (js "message")) by reflexivity.
    unfold field. rewrite Hm. destruct m; [contradiction | reflexivity].
  - intros [Hnone|(inner & Hinner & Hm)].
    + rewrite Hnone. reflexivity.
    + rewrite Hinner. cbn [default from_option id rbind js_get_opt nullish].
      rewrite (js_get_own E inner (js "message")) by reflexivity.
      unfold field. rewrite Hm. reflexivity.
Qed.

(** X13. A successful response with an empty list of choices is the
    no-content error; one without [choices] at all is the engine's
    TypeError for reading index 0 of [undefined]. *)
Theorem chat_completion_no_content
    (req : request) (provider : list N) (resp : response)
    (data : gmap (list N) value) (t : list event) :
  fetch W req = Ok resp -> resp_ok resp = true ->
  resp_json resp = Ok (VObj data) ->
  (data !! js "choices" = Some (VArr []) ->
   chat_completion E W req provider t
   = (Throw (ThrownError (Error (js "No content in " ++ provider ++ js " response"))),
      t ++ [EvFetch req]))
  /\ (data !! js "choices" = None ->
      chat_completion E W req provider t
      = (Throw (ThrownError (TypeError (msg_cannot_read E VUndefined (js "0")))),
         t ++ [EvFetch req])).
Proof.
  intros Hfetch Hok Hjson.
  unfold chat_completion, mcatch, mbind, call, lift_result, lift_sync, throw.
  rewrite Hfetch, Hok, Hjson. cbn [negb].
  unfold first_choice_content. rewrite (js_get_own E data (js "choices")) by reflexivity.
  unfold field. split; intros Hc; rewrite Hc; reflexivity.
Qed.

(** X14. A successful response is read at [choices[0].message.content]
    only: when that is a non-empty string, the adapter returns what the
    normalizer makes of it, an error of the normalizer included, and does
    not validate the records. *)
Theorem chat_completion_first_choice
    (req : request) (provider : list N) (resp : response)
    (data choice msg : gmap (list N) value) (others : list value)
    (content : list N) (t : list event) :
  fetch W req = Ok resp -> resp_ok resp = true ->
  resp_json resp = Ok (VObj data) ->
  data !! js "choices" = Some (VArr (VObj choice :: others)) ->
  choice !! js "message" = Some (VObj msg) ->
  msg !! js "content" = Some (VStr content) -> content <> [] ->
  chat_completion E W req provider t
  = (match parseAIResponse E content with
     | Ok listings => Ok listings
     | Throw e => Throw (ThrownError e)
     end, t ++ [EvFetch req]).
Proof.
  intros Hfetch Hok Hjson Hchoices Hmsg Hcontent Hne.
  unfold chat_completion, mcatch, mbind, call, lift_result, lift_sync, throw.
  rewrite Hfetch, Hok, Hjson. cbn [negb].
  unfold first_choice_content. rewrite (js_get_own E data (js "choices")) by reflexivity.
  unfold field at 1. rewrite Hchoices. cbn [default from_option id rbind].
  rewrite js_get_first. cbn [lookup list_lookup default from_option id rbind
                               js_get_opt nullish].
  rewrite (js_get_own E choice (js "message")) by reflexivity.
  unfold field at 1. rewrite Hmsg. cbn [default from_option id rbind js_get_opt nullish].
  rewrite (js_get_own E msg (js "content")) by reflexivity.
  unfold field. rewrite Hcontent. cbn [default from_option id].
  destruct content as [|a content]; [contradiction |].
  cbn [truthy isEmpty negb ToString].
  destruct (parseAIResponse E (a :: content)); reflexivity.
Qed.

(** X15. The normalizer succeeds exactly when the text parses to a value
    whose [typeof] is ['object'] and that is not [null] (an object or a
    list); every failure, a syntax error of [JSON.parse] included, is an
    [Error] whose message is the prefix of the normalizer followed by the
    message of the cause. *)
Theorem parseAIResponse_outcome (text : list N) :
  ((exists l, parseAIResponse E text = Ok l) <->
   exists parsed, JSON_parse E text = inr parsed
                  /\ typeof parsed = TObject /\ parsed <> VNull)
  /\ (forall e, parseAIResponse E text = Throw e ->
                exists m, e = Error (js "Failed to parse AI response: " ++ m))
  /\ (forall m, JSON_parse E text = inl m ->
                parseAIResponse E text
                = Throw (Error (js "Failed to parse AI response: " ++ m))).
Proof.
  split; [| split].
  - split.
    + intros [l Hl]. destruct (JSON_parse E text) as [m|parsed] eqn:Hp.
      * unfold parseAIResponse in Hl. rewrite Hp in Hl. discriminate.
      * exists parsed. split; [reflexivity |].
        rewrite (parseAIResponse_parsed E _ _ Hp) in Hl.
        destruct parsed as [| |b|n|s|items|o|b];
          try (split; [reflexivity | discriminate]);
          try (cbn [js_get rbind rcatch truthy Array_isArray typeof jstype_eqb andb] in Hl;
               discriminate).
        destruct b; try discriminate. split; [reflexivity | discriminate].
    + intros (parsed & Hp & Ht & Hn).
      rewrite (parseAIResponse_parsed E _ _ Hp).
      destruct parsed as [| |b|n|s|items|o|b]; try discriminate.
      * destruct Hn. reflexivity.
      * eexists. reflexivity.
      * rewrite js_get_own by reflexivity. cbn [rbind].
        destruct (truthy _ && Array_isArray _); eexists; reflexivity.
      * destruct b; try discriminate. eexists. reflexivity.
  - intros e. unfold parseAIResponse, rcatch.
    match goal with
    | |- context [match ?body with Ok _ => _ | Throw _ => _ end] => destruct body
    end; [discriminate |].
    intros [= <-]. eexists. reflexivity.
  - intros m Hm. unfold parseAIResponse. rewrite Hm. reflexivity.
Qed.

End ResponseMore.

(** * Further properties of the orchestration and of the settings screen *)

Lemma provider_call_not_rpc (s : settings) (rawData : list N) (ev : event) :
  provider_call s rawData ev -> is_rpc ev = false.
Proof. destruct s, ev; simpl; tauto. Qed.

Section OrchestrationMore.

Variable E : Engine.
Variable W : World.
Variable currentYear : Z.

(** X16. Whatever its outcome, [parseCarListing] reads the settings store
    at most five times and then contacts a provider at most once; it does
    nothing else, and on blank input nothing at all. *)
Theorem parseCarListing_calls
    (rawData : list N) (t t' : list event) (r : result thrown (list value)) :
  parseCarListing E W currentYear rawData t = (r, t') ->
  exists reads calls,
    t' = t ++ reads ++ calls
    /\ forallb is_rpc reads = true /\ (length reads <= 5)%nat
    /\ forallb (fun ev => negb (is_rpc ev)) calls = true /\ (length calls <= 1)%nat
    /\ (trim rawData = [] -> reads = [] /\ calls = []).
Proof.
  unfold parseCarListing.
  destruct (isEmpty (trim rawData)) eqn:Hraw.
  { intros [= _ <-]. exists [], []. rewrite app_nil_r.
    repeat split; auto; simpl; lia. }
  assert (Hne : trim rawData <> []).
  { intros H. rewrite H in Hraw. discriminate. }
  unfold mcatch, mbind.
  destruct (getSettings W t) as [[s|x] t1] eqn:Hg;
    apply getSettings_reads in Hg as (reads & -> & Hrpc & Hlen).
  - destruct (call_provider E W s rawData (t ++ reads)) as [[parsed|x] t2] eqn:Hc;
      apply call_provider_trace in Hc as [->|(ev & -> & Hev)];
      try apply provider_call_not_rpc in Hev;
      try (destruct (length _ =? 0)%nat); intros [= _ <-];
      lazymatch goal with
      | H : is_rpc ?ev = false |- _ =>
          exists reads, [ev]; rewrite app_assoc; cbn [forallb length]; rewrite H
      | _ => exists reads, []; rewrite app_nil_r
      end;
      repeat split;
        first [reflexivity | assumption | simpl; lia | intros; contradiction].
  - intros [= _ <-]. exists reads, [].
    rewrite app_nil_r. repeat split;
        first [reflexivity | assumption | simpl; lia | intros; contradiction].
Qed.

End OrchestrationMore.

Section ScreenMore.

Variable W : World.

Lemma loadSettings_run (st : AdminState) (t : list event) :
  loadSettings W st t =
    (Ok {| st_loading := false;
           st_error := None;
           st_settings :=
             {| ui_gemini_api_key := or_default (rpc_data (rpc W (js "get_gemini_apikey"))) [];
                ui_gemini_prompt := or_default (rpc_data (rpc W (js "get_gemini_prompt"))) [];
                ui_deepseek_api_key := or_default (rpc_data (rpc W (js "get_deepseek_apikey"))) [];
                ui_deepseek_prompt := or_default (rpc_data (rpc W (js "get_deepseek_prompt"))) [];
                ui_openrouter_api_key :=
                  or_default (rpc_data (rpc W (js "get_openrouter_apikey"))) [];
                ui_openrouter_prompt :=
                  or_default (rpc_data (rpc W (js "get_openrouter_prompt"))) [];
                ui_site_url :=
                  or_default (rpc_data (rpc W (js "get_openrouter_site_url")))
                    (window_location_origin W);
                ui_site_name :=
                  or_default (rpc_data (rpc W (js "get_openrouter_site_name")))
                    (js "BananaDB");
                ui_ai_provider :=
                  or_default (rpc_data (rpc W (js "get_ai_provider"))) (js "gemini") |} |},
     t ++ screen_reads).
Proof.
  unfold loadSettings, mcatch, mbind, supabase_rpc, call, mret, screen_reads.
  cbn [st_loading st_error st_settings].
  rewrite <- !app_assoc. reflexivity.
Qed.

(** X17. [loadSettings] never fails and never reports an error of a read:
    it makes its nine reads, in a fixed order, leaves the screen not
    loading and without an error message, and shows for a setting whose read
    gave no text the default ([gemini] for the provider).  Whenever the
    accessor of the pipeline succeeds, the screen shows for the active
    provider exactly the bundle the pipeline uses. *)
Theorem loadSettings_shows_bundle (st : AdminState) (t : list event) :
  (exists st', loadSettings W st t = (Ok st', t ++ screen_reads)
               /\ st_loading st' = false /\ st_error st' = None
               /\ ui_ai_provider (st_settings st')
                  = or_default (rpc_data (rpc W (js "get_ai_provider"))) (js "gemini"))
  /\ (forall t0 t1 s st' t',
         getSettings W t0 = (Ok s, t1) ->
         loadSettings W st t = (Ok st', t') ->
         shown_bundle (st_settings st') s).
Proof.
  split.
  - eexists. split; [apply loadSettings_run |]. repeat split.
  - intros t0 t1 s st' t' Hg. rewrite loadSettings_run. intros [= <- _].
    revert Hg. open_getSettings.
    read_setting W.
    1: { destruct (instanceofError e); discriminate. }
    all: destruct (decide (_ = js "gemini")) as [Hg|Hg];
      [| destruct (decide (_ = js "deepseek")) as [Hd|Hd];
         [| destruct (decide (_ = js "openrouter")) as [Ho|Ho]]];
      repeat read_setting W;
      try (intros H; exfalso; revert H;
           match goal with
           | |- context [instanceofError ?x] => destruct (instanceofError x)
           end; discriminate);
      intros [= <- _]; unfold shown_bundle;
      cbn [st_settings ui_ai_provider ai_provider ui_gemini_api_key ui_gemini_prompt
             ui_deepseek_api_key ui_deepseek_prompt ui_openrouter_api_key
             ui_openrouter_prompt ui_site_url ui_site_name];
      repeat split; assumption.
Qed.

End ScreenMore.

(** * Concrete runs of the further properties *)

(** X1 at the 2019 car with the fuel type [Gas]: [make] is as it was. *)
Lemma validateListing_touches_fuel_type_only_witness :
  field (snd (validateListing V8 2026 (VObj (car_with_fuel_type (VStr (js "Gas"))))))
    (js "make")
  = field (VObj (car_with_fuel_type (VStr (js "Gas")))) (js "make")
  /\ snd (validateListing V8 2026 (VObj (car_with_fuel_type (VNum (num_of_Z 5)))))
     = VObj (car_with_fuel_type (VNum (num_of_Z 5))).
Proof.
  split.
  - apply (proj1 (validateListing_touches_fuel_type_only V8 2026 _)). discriminate.
  - apply (proj2 (validateListing_touches_fuel_type_only V8 2026 _)). run.
Defined.

(** X2 at the same car: the fuel type it carries after validation. *)
Lemma validateListing_fuel_type_canonical_witness :
  js "Petrol" = [] \/ js "Petrol" ∈ canonical_fuel_types.
Proof.
  apply (validateListing_fuel_type_canonical V8 2026
           (VObj (car_with_fuel_type (VStr (js "Gas"))))
           (VObj (<[ js "fuel_type" := VStr (js "Petrol") ]>
                    (car_with_fuel_type (VStr (js "Gas")))))); run.
Defined.

(** X3 at the validated car. *)
Lemma validateListing_idempotent_witness :
  validateListing V8 2026
    (VObj (<[ js "fuel_type" := VStr (js "Petrol") ]>
             (car_with_fuel_type (VStr (js "Gas")))))
  = (true, VObj (<[ js "fuel_type" := VStr (js "Petrol") ]>
                   (car_with_fuel_type (VStr (js "Gas"))))).
Proof.
  apply (validateListing_idempotent V8 2026
           (VObj (car_with_fuel_type (VStr (js "Gas"))))).
  - run.
  - intros b H. vm_compute in H. discriminate.
Defined.

(** X5 at a list of three candidates: the second has a number as
    [fuel_type], the third the year 1899. *)
Lemma filter_validateListing_idempotent_witness :
  filter_validateListing V8 2026
    (filter_validateListing V8 2026
       [VObj (car_with_fuel_type (VStr (js "Gas")));
        VObj (car_with_fuel_type (VNum (num_of_Z 5)));
        VObj (car (num_of_Z 1899))])
  = [VObj (<[ js "fuel_type" := VStr (js "Petrol") ]>
             (car_with_fuel_type (VStr (js "Gas"))))].
Proof.
  assert (Hout : filter_validateListing V8 2026
                   [VObj (car_with_fuel_type (VStr (js "Gas")));
                    VObj (car_with_fuel_type (VNum (num_of_Z 5)));
                    VObj (car (num_of_Z 1899))]
                 = [VObj (<[ js "fuel_type" := VStr (js "Petrol") ]>
                            (car_with_fuel_type (VStr (js "Gas"))))]) by run.
  rewrite (filter_validateListing_idempotent V8 2026); [exact Hout |].
  rewrite Hout. constructor; [| constructor].
  intros b H. vm_compute in H. discriminate.
Defined.

(** X4 at the spellings [PHEV] and [phev]. *)
Lemma validateListing_case_insensitive_witness :
  fst (validateListing V8 2026
         (VObj (<[ js "fuel_type" := VStr (js "PHEV") ]> (car (num_of_Z 2019)))))
  = fst (validateListing V8 2026
           (VObj (<[ js "fuel_type" := VStr (js "phev") ]> (car (num_of_Z 2019))))).
Proof.
  refine (proj1 (validateListing_case_insensitive V8 2026 _ (js "PHEV") (js "phev") _)).
  run.
Defined.

(** X6 and X16 at the end-to-end example. *)
Lemma parseCarListing_returns_valid_witness :
  Forall (fun c =>
            ~ listed_rejection 2026 c
            /\ forall s, field c (js "fuel_type") = VStr s ->
                         s = [] \/ s ∈ canonical_fuel_types)
         [VObj (car (num_of_Z 2019))].
Proof.
  eapply (parseCarListing_returns_valid V8
            (sample_world (Some (js "gemini")) toyota_reply) 2026
            (js "2019 Toyota Corolla") []).
  run.
Defined.

Lemma parseCarListing_calls_witness :
  exists reads calls,
    [EvRpc (js "get_ai_provider"); EvRpc (js "get_gemini_apikey");
     EvRpc (js "get_gemini_prompt");
     EvGenerateContent (js "configured") (js "gemini-pro") (js "configured")
       (js "2019 Toyota Corolla")]
    = [] ++ reads ++ calls
    /\ forallb is_rpc reads = true /\ (length reads <= 5)%nat
    /\ forallb (fun ev => negb (is_rpc ev)) calls = true /\ (length calls <= 1)%nat
    /\ (trim (js "2019 Toyota Corolla") = [] -> reads = [] /\ calls = []).
Proof.
  eapply (parseCarListing_calls V8
            (sample_world (Some (js "gemini")) toyota_reply) 2026
            (js "2019 Toyota Corolla") []).
  run.
Defined.

(** X7 at a provider call that throws a string. *)
Lemma parseCarListing_throws_errors_witness :
  fst (parseCarListing V8
         (failing_world (Some (js "gemini")) (ThrownValue (VStr (js "quota"))))
         2026 (js "2019 Toyota Corolla") [])
  = Throw (ThrownError (Error (js "Failed to parse car listing data")))
  /\ instanceofError (ThrownError (Error (js "Failed to parse car listing data"))) = true.
Proof.
  split; [run |].
  eapply (parseCarListing_throws_errors V8
            (failing_world (Some (js "gemini")) (ThrownValue (VStr (js "quota"))))
            2026 (js "2019 Toyota Corolla") []).
  run.
Defined.

(** X8 at a store without a provider tag. *)
Lemma getSettings_reads_active_provider_witness :
  ai_provider (GeminiSettings (js "configured") (js "configured"))
  = or_default (rpc_data (rpc (sample_world None []) (js "get_ai_provider"))) (js "gemini")
  /\ [EvRpc (js "get_ai_provider"); EvRpc (js "get_gemini_apikey");
      EvRpc (js "get_gemini_prompt")]
     = [] ++ settings_reads (GeminiSettings (js "configured") (js "configured"))
  /\ Forall (read_clean (sample_world None []))
            (settings_reads (GeminiSettings (js "configured") (js "configured"))).
Proof.
  apply (getSettings_reads_active_provider (sample_world None []) []). run.
Defined.

(** X9 at a store whose error is a plain object. *)
Lemma getSettings_store_error_witness :
  getSettings (store_error_world (ThrownValue (VObj ∅))) []
  = (Throw (ThrownError (Error (js "Failed to load AI settings"))),
     [EvRpc (js "get_ai_provider")]).
Proof.
  apply (proj1 (getSettings_store_error (store_error_world (ThrownValue (VObj ∅))) [])
           (ThrownValue (VObj ∅))); run.
Defined.

(** X10 at the Gemini bundle of the sample world. *)
Lemma call_provider_one_call_witness :
  exists ev,
    [EvGenerateContent (js "configured") (js "gemini-pro") (js "prompt")
       (js "2019 Toyota Corolla")] = [] ++ [ev]
    /\ provider_call (GeminiSettings (js " configured ") (js "prompt"))
         (js "2019 Toyota Corolla") ev.
Proof.
  refine (proj2 (call_provider_one_call V8
                   (sample_world (Some (js "gemini")) toyota_reply)
                   (GeminiSettings (js " configured ") (js "prompt"))
                   (js "2019 Toyota Corolla") []
                   [EvGenerateContent (js "configured") (js "gemini-pro") (js "prompt")
                      (js "2019 Toyota Corolla")]
                   (Ok [VObj (car (num_of_Z 2019))]) _) _ _).
  - run.
  - vm_compute. discriminate.
  - discriminate.
Defined.

(** X11 at a Deepseek bundle with a blank key. *)
Lemma call_provider_requires_credentials_witness :
  call_provider V8 (sample_world (Some (js "deepseek")) [])
    (DeepseekSettings (js "  ") (js "prompt")) (js "2019 Toyota Corolla") []
  = (Throw (ThrownError (Error (js "Deepseek" ++ js " API key is required"))), []).
Proof.
  apply (proj2 (proj2 (call_provider_requires_credentials V8
                         (sample_world (Some (js "deepseek")) [])
                         (DeepseekSettings (js "  ") (js "prompt"))
                         (js "2019 Toyota Corolla") []))).
  - discriminate.
  - discriminate.
  - run.
Defined.

(** X12 at a response with status 429 and the provider's message. *)
Lemma chat_completion_error_status_witness :
  chat_completion V8
    (http_world {| resp_ok := false; resp_json := Ok (VObj rate_limit_body) |})
    sample_request (js "Deepseek") []
  = (Throw (ThrownError (Error (js "Rate limit reached"))), [EvFetch sample_request]).
Proof.
  refine (proj1 (chat_completion_error_status V8
                   (http_world {| resp_ok := false;
                                  resp_json := Ok (VObj rate_limit_body) |})
                   sample_request (js "Deepseek") _ rate_limit_body []
                   eq_refl eq_refl eq_refl)
            {[ js "message" := VStr (js "Rate limit reached") ]}
            (js "Rate limit reached") _ _ _).
  - run.
  - run.
  - discriminate.
Defined.

(** X13 at a response with no choice. *)
Lemma chat_completion_no_content_witness :
  chat_completion V8
    (http_world {| resp_ok := true;
                   resp_json := Ok (VObj {[ js "choices" := VArr [] ]}) |})
    sample_request (js "Deepseek") []
  = (Throw (ThrownError (Error (js "No content in " ++ js "Deepseek" ++ js " response"))),
     [EvFetch sample_request]).
Proof.
  refine (proj1 (chat_completion_no_content V8
                   (http_world {| resp_ok := true;
                                  resp_json := Ok (VObj {[ js "choices" := VArr [] ]}) |})
                   sample_request (js "Deepseek") _ {[ js "choices" := VArr [] ]} []
                   eq_refl eq_refl eq_refl) _).
  run.
Defined.

(** X14 at the reply of the sample world. *)
Lemma chat_completion_first_choice_witness :
  chat_completion V8 (sample_world (Some (js "deepseek")) toyota_reply)
    sample_request (js "Deepseek") []
  = (Ok [VObj (car (num_of_Z 2019))], [EvFetch sample_request]).
Proof.
  rewrite (chat_completion_first_choice V8
             (sample_world (Some (js "deepseek")) toyota_reply)
             sample_request (js "Deepseek") _
             {[ js "choices" :=
                  VArr [VObj {[ js "message" :=
                                  VObj {[ js "content" := VStr toyota_reply ]} ]}] ]}
             {[ js "message" := VObj {[ js "content" := VStr toyota_reply ]} ]}
             {[ js "content" := VStr toyota_reply ]} [] toyota_reply []
             eq_refl eq_refl eq_refl).
  - run.
  - run.
  - run.
  - run.
  - vm_compute. discriminate.
Defined.

(** X15 at the empty object and at a text that is not JSON. *)
Lemma parseAIResponse_outcome_witness :
  (exists l, parseAIResponse V8 (js "{}") = Ok l)
  /\ parseAIResponse V8 (js "{ make")
     = Throw (Error (js "Failed to parse AI response: " ++ js "Unexpected token in JSON")).
Proof.
  split.
  - apply (proj1 (parseAIResponse_outcome V8 (js "{}"))).
    exists (VObj ∅). split; [run | split; [reflexivity | discriminate]].
  - apply (proj2 (proj2 (parseAIResponse_outcome V8 (js "{ make")))). run.
Defined.

(** X17 at a store set to OpenRouter without a site URL. *)
Lemma loadSettings_shows_bundle_witness :
  shown_bundle
    (st_settings
       {| st_loading := false; st_error := None;
          st_settings :=
            {| ui_gemini_api_key := js "configured"; ui_gemini_prompt := js "configured";
               ui_deepseek_api_key := js "configured";
               ui_deepseek_prompt := js "configured";
               ui_openrouter_api_key := js "configured";
               ui_openrouter_prompt := js "configured";
               ui_site_url := js "https://bananadb.example";
               ui_site_name := js "configured";
               ui_ai_provider := js "openrouter" |} |})
    (OpenRouterSettings (js "configured") (js "configured")
       (js "https://bananadb.example") (js "configured")).
Proof.
  refine (proj2 (loadSettings_shows_bundle
                   (sample_world (Some (js "openrouter")) []) initial_state [])
            [] (settings_reads (OpenRouterSettings [] [] [] [])) _ _
            ([] ++ screen_reads) _ _).
  - run.
  - run.
Defined.
